(** * Brandi backend: DAO, service and view layers

    A shallow embedding of

      - model/admin/create_product_dao.py   (module [CreateProductDao])
      - model/store/sender_dao.py           (module [SenderDao])
      - service/store/seller_shop_service.py (module [SellerShopService])
      - view/store/destination_view.py      (module [DestinationView])
      - view/store/store_order_view.py      (module [StoreOrderView])

    Python values are an inductive type, exceptions are an inductive type
    of [Exception] instances, and every method is a function in a state
    and exception monad whose state is what the method can touch: the
    database connection for a DAO, the injected DAO's state for a service,
    the server, the handler's local variable [connection] and the log of
    connection calls for a view. *)

From Stdlib Require Import String Ascii List ZArith Bool Lia.
Import ListNotations.
Set Warnings "-register-all".
Local Open Scope string_scope.
Local Open Scope Z_scope.

(** ** Python values *)

Module Py.

Inductive pyval : Type :=
| PyNone
| PyBool (b : bool)
| PyInt (n : Z)
| PyStr (s : string)
| PyList (items : list pyval)
| PyTuple (items : list pyval)
| PyDict (entries : list (string * pyval))
| PyResponse (body : pyval).       (* flask.jsonify(body) *)

(** [bool(v)], the test behind [if v:] and [if not v:]. *)
Definition truthy (v : pyval) : bool :=
  match v with
  | PyNone => false
  | PyBool b => b
  | PyInt n => negb (n =? 0)
  | PyStr s => negb (String.eqb s "")
  | PyList l => match l with [] => false | _ => true end
  | PyTuple l => match l with [] => false | _ => true end
  | PyDict d => match d with [] => false | _ => true end
  | PyResponse _ => true
  end.

(** Dictionaries keep insertion order: an association list, first binding
    of a key wins on lookup. *)
Fixpoint lookup (k : string) (d : list (string * pyval)) : option pyval :=
  match d with
  | [] => None
  | (k', v) :: rest => if String.eqb k k' then Some v else lookup k rest
  end.

End Py.
Export Py.

(** ** Exceptions

    The instances of [Exception]: the classes of utils.custom_exceptions
    the sources name, the builtins the modelled statements can raise, the
    driver's errors and the validator's.  Everything here is caught by an
    [except Exception] clause. *)

Inductive exn : Type :=
| ProductCreateDenied (msg : string)
| ProductImageCreateDenied (msg : string)
| StockCreateDenied (msg : string)
| ProductHistoryCreateDenied (msg : string)
| ProductCodeUpdatedDenied (msg : string)
| AccountNotExist (msg : string)
| ServerError (msg : string)
| DatabaseCloseFail (msg : string)
| CustomError (cls : string) (msg : string)   (* any other utils.custom_exceptions class *)
| KeyError (key : pyval)
| IndexError (msg : string)
| TypeError (msg : string)
| AttributeError (msg : string)
| UnboundLocalError (name : string)           (* subclass of NameError *)
| MySQLError (errno : Z) (msg : string)       (* pymysql.err.MySQLError and subclasses *)
| InvalidRequest (invalid : list string).     (* flask_request_validator *)

(** [isinstance(e, KeyError)], the filter of [except KeyError]. *)
Definition is_KeyError (e : exn) : bool :=
  match e with KeyError _ => true | _ => false end.

(** [isinstance(e, NameError)]. *)
Definition is_NameError (e : exn) : bool :=
  match e with UnboundLocalError _ => true | _ => false end.

(** ** The monad: state, exceptions and stderr *)

Inductive outcome (A : Type) : Type :=
| Return (a : A)
| Raise (e : exn).
Arguments Return {A} a.
Arguments Raise {A} e.

(** The state [S] a method works on, and the tracebacks printed so far. *)
Record world (S : Type) : Type := World {
  state : S;
  stderr : list exn
}.
Arguments World {S} state stderr.
Arguments state {S} w.
Arguments stderr {S} w.

Definition M (S A : Type) : Type := world S -> outcome A * world S.

Definition ret {S A} (a : A) : M S A := fun w => (Return a, w).

Definition raise {S A} (e : exn) : M S A := fun w => (Raise e, w).

Definition bind {S A B} (m : M S A) (k : A -> M S B) : M S B :=
  fun w => match m w with
           | (Return a, w') => k a w'
           | (Raise e, w') => (Raise e, w')
           end.

Declare Scope py_scope.
Delimit Scope py_scope with py.
Notation "x <- m ;; k" := (bind m (fun x => k))
  (at level 61, m at next level, right associativity) : py_scope.
Notation "m ;;; k" := (bind m (fun _ => k))
  (at level 61, right associativity) : py_scope.
Local Open Scope py_scope.

(** [try: body / except Exception as e: handler e]. *)
Definition try_except {S A} (body : M S A) (handler : exn -> M S A) : M S A :=
  fun w => match body w with
           | (Return a, w') => (Return a, w')
           | (Raise e, w') => handler e w'
           end.

(** [try: body / except <class>: handler], the class given by [catches]. *)
Definition try_except_if {S A} (catches : exn -> bool) (body : M S A)
  (handler : exn -> M S A) : M S A :=
  fun w => match body w with
           | (Return a, w') => (Return a, w')
           | (Raise e, w') => if catches e then handler e w' else (Raise e, w')
           end.

(** [try: body / finally: final].  [final] runs whatever [body] did; when
    it raises, its exception replaces the result of [body]. *)
Definition try_finally {S A} (body : M S A) (final : M S unit) : M S A :=
  fun w => match body w with
           | (o, w') => match final w' with
                        | (Return _, w'') => (o, w'')
                        | (Raise e, w'') => (Raise e, w'')
                        end
           end.

(** [traceback.print_exc()] inside an [except] clause handling [e]. *)
Definition print_exc {S} (e : exn) : M S unit :=
  fun w => (Return tt, World (state w) (stderr w ++ [e])).

(** Run a function of the state alone. *)
Definition on_state {S A} (f : S -> outcome A * S) : M S A :=
  fun w => match f (state w) with
           | (o, s') => (o, World s' (stderr w))
           end.

(** [d[k]] on a dict. *)
Definition getitem {S} (d : pyval) (k : string) : M S pyval :=
  match d with
  | PyDict entries =>
      match lookup k entries with
      | Some v => ret v
      | None => raise (KeyError (PyStr k))
      end
  | _ => raise (TypeError "object is not subscriptable")
  end.

(** ** The database driver as the DAOs use it *)

(** One constructor per SQL text of the DAO sources. *)
Inductive statement : Type :=
| INSERT_products              (* create_product_dao.py, insert_product *)
| UPDATE_products_product_code (* update_product_code:
                                  UPDATE products SET product_code = %(product_code)s
                                  WHERE id = %(product_id)s AND is_deleted = 0 *)
| INSERT_product_images        (* insert_product_image *)
| INSERT_stocks                (* insert_stock *)
| INSERT_product_histories     (* insert_product_history *)
| SELECT_customer_information  (* sender_dao.py, get_sender_info_dao:
                                  SELECT name, phone, email FROM customer_information
                                  WHERE account_id = %s *)
| SELECT_accounts_permission.  (* get_user_permission_check_dao:
                                  SELECT permission_type_id FROM accounts WHERE id = %s *)

Inductive cursor_class : Type := Cursor | DictCursor.

(** pymysql's connection and cursor, over a connection state [C]:
    [connection.cursor(cls)], [cursor.execute(sql, args)] (the number of
    affected rows), [cursor.lastrowid], [cursor.fetchone()] and the
    cursor's [__exit__], which closes it and suppresses nothing. *)
Record Driver (C : Type) : Type := {
  cursor_open : cursor_class -> C -> outcome unit * C;
  cursor_execute : statement -> pyval -> C -> outcome Z * C;
  cursor_lastrowid : C -> pyval;
  cursor_fetchone : C -> outcome pyval * C;
  cursor_exit : C -> outcome unit * C
}.
Arguments cursor_open {C} _ _ _.
Arguments cursor_execute {C} _ _ _ _.
Arguments cursor_lastrowid {C} _ _.
Arguments cursor_fetchone {C} _ _.
Arguments cursor_exit {C} _ _.

Section Cursor.
Context {C : Type} (drv : Driver C).

(** [with connection.cursor(cls) as cursor: body]. *)
Definition with_cursor {A} (cls : cursor_class) (body : M C A) : M C A :=
  on_state (cursor_open drv cls) ;;;
  try_finally body (on_state (cursor_exit drv)).

Definition execute (sql : statement) (args : pyval) : M C Z :=
  on_state (cursor_execute drv sql args).

Definition lastrowid : M C pyval :=
  fun w => (Return (cursor_lastrowid drv (state w)), w).

Definition fetchone : M C pyval :=
  on_state (cursor_fetchone drv).

End Cursor.

(** ** model/admin/create_product_dao.py

    The [connection] argument of each method is the state of the monad. *)

Module CreateProductDao.
Section Dao.
Context {C : Type} (drv : Driver C).

Definition insert_product (data : pyval) : M C pyval :=
  with_cursor drv Cursor (
    execute drv INSERT_products data ;;;
    product_id <- lastrowid drv ;;
    if negb (truthy product_id)
    then raise (ProductCreateDenied "unable_to_create_product")
    else ret product_id).

Definition update_product_code (data : pyval) : M C pyval :=
  with_cursor drv Cursor (
    result <- execute drv UPDATE_products_product_code data ;;
    if negb (truthy (PyInt result))
    then raise (ProductCodeUpdatedDenied "unable_to_update_product_code")
    else ret PyNone).

Definition insert_product_image (data : pyval) : M C pyval :=
  with_cursor drv Cursor (
    execute drv INSERT_product_images data ;;;
    result <- lastrowid drv ;;
    if negb (truthy result)
    then raise (ProductImageCreateDenied "unable_to_create_product_image")
    else ret PyNone).

Definition insert_stock (data : pyval) : M C pyval :=
  with_cursor drv Cursor (
    result <- execute drv INSERT_stocks data ;;
    if negb (truthy (PyInt result))
    then raise (StockCreateDenied "unable_to_create_stocks")
    else ret PyNone).

Definition insert_product_history (data : pyval) : M C pyval :=
  with_cursor drv Cursor (
    result <- execute drv INSERT_product_histories data ;;
    if negb (truthy (PyInt result))
    then raise (ProductHistoryCreateDenied "unable_to_create_product_history")
    else ret PyNone).

(** The four insert methods, their statement and their error. *)
Inductive insert_method : Type :=
| InsertProduct | InsertProductImage | InsertStock | InsertProductHistory.

Definition call (m : insert_method) : pyval -> M C pyval :=
  match m with
  | InsertProduct => insert_product
  | InsertProductImage => insert_product_image
  | InsertStock => insert_stock
  | InsertProductHistory => insert_product_history
  end.

Definition statement_of (m : insert_method) : statement :=
  match m with
  | InsertProduct => INSERT_products
  | InsertProductImage => INSERT_product_images
  | InsertStock => INSERT_stocks
  | InsertProductHistory => INSERT_product_histories
  end.

Definition denied (m : insert_method) : exn :=
  match m with
  | InsertProduct => ProductCreateDenied "unable_to_create_product"
  | InsertProductImage => ProductImageCreateDenied "unable_to_create_product_image"
  | InsertStock => StockCreateDenied "unable_to_create_stocks"
  | InsertProductHistory => ProductHistoryCreateDenied "unable_to_create_product_history"
  end.

(** What each method tests after [execute], on the affected-row count [n]
    and on [cursor.lastrowid], and what it returns when the test passes. *)
Definition succeeded (m : insert_method) (n : Z) (id : pyval) : bool :=
  match m with
  | InsertProduct | InsertProductImage => truthy id
  | InsertStock | InsertProductHistory => truthy (PyInt n)
  end.

Definition result_of (m : insert_method) (id : pyval) : pyval :=
  match m with
  | InsertProduct => id
  | _ => PyNone
  end.

(** "Returns the new row's identifier, or raises the method's
    creation-denied error; no other outcome." *)
Definition returns_id_or_denied (m : insert_method) (o : outcome pyval) : Prop :=
  (exists id, o = Return (PyInt id)) \/ o = Raise (denied m).

End Dao.
End CreateProductDao.

(** ** model/store/sender_dao.py *)

Module SenderDao.
Section Dao.
Context {C : Type} (drv : Driver C).

Definition get_sender_info_dao (data : pyval) : M C pyval :=
  try_except
    (with_cursor drv DictCursor (
       user_id <- getitem data "user_id" ;;
       execute drv SELECT_customer_information user_id ;;;
       result <- fetchone drv ;;
       if negb (truthy result)
       then ret (PyDict [("name", PyStr ""); ("phone", PyStr ""); ("email", PyStr "")])
       else ret result))
    (fun e => print_exc e ;;; raise (ServerError "server_error")).

Definition get_user_permission_check_dao (data : pyval) : M C pyval :=
  try_except
    (with_cursor drv DictCursor (
       user_id <- getitem data "user_id" ;;
       execute drv SELECT_accounts_permission user_id ;;;
       result <- fetchone drv ;;
       if negb (truthy result)
       then raise (AccountNotExist "account_does_not_exist")
       else ret result))
    (fun e => print_exc e ;;; raise (ServerError "server_error")).

End Dao.
End SenderDao.

(** ** service/store/seller_shop_service.py *)

Module SellerShopService.

(** The injected [seller_shop_dao]: its four methods, on whatever state
    [S] they work. *)
Record SellerShopDao (S : Type) : Type := {
  get_seller_info_dao : pyval -> M S pyval;
  get_seller_product_search_dao : pyval -> M S pyval;
  get_seller_category_dao : pyval -> M S pyval;
  get_seller_product_list_dao : pyval -> M S pyval
}.
Arguments get_seller_info_dao {S} _ _.
Arguments get_seller_product_search_dao {S} _ _.
Arguments get_seller_category_dao {S} _ _.
Arguments get_seller_product_list_dao {S} _ _.

Section Service.
Context {S : Type} (seller_shop_dao : SellerShopDao S).

Definition get_seller_info_service (data : pyval) : M S pyval :=
  try_except_if is_KeyError
    (get_seller_info_dao seller_shop_dao data)
    (fun e => print_exc e ;;; raise (KeyError (PyStr "key_error"))).

Definition get_seller_product_search_service (data : pyval) : M S pyval :=
  try_except_if is_KeyError
    (get_seller_product_search_dao seller_shop_dao data)
    (fun e => print_exc e ;;; raise (KeyError (PyStr "key_error"))).

Definition get_seller_category_service (data : pyval) : M S pyval :=
  try_except_if is_KeyError
    (get_seller_category_dao seller_shop_dao data)
    (fun e => print_exc e ;;; raise (KeyError (PyStr "key_error"))).

Definition get_seller_product_list_service (data : pyval) : M S pyval :=
  try_except_if is_KeyError
    (get_seller_product_list_dao seller_shop_dao data)
    (fun e => print_exc e ;;; raise (KeyError (PyStr "key_error"))).

Inductive method : Type :=
| SellerInfo | SellerProductSearch | SellerCategory | SellerProductList.

Definition service_of (m : method) : pyval -> M S pyval :=
  match m with
  | SellerInfo => get_seller_info_service
  | SellerProductSearch => get_seller_product_search_service
  | SellerCategory => get_seller_category_service
  | SellerProductList => get_seller_product_list_service
  end.

Definition dao_of (m : method) : pyval -> M S pyval :=
  match m with
  | SellerInfo => get_seller_info_dao seller_shop_dao
  | SellerProductSearch => get_seller_product_search_dao seller_shop_dao
  | SellerCategory => get_seller_category_dao seller_shop_dao
  | SellerProductList => get_seller_product_list_dao seller_shop_dao
  end.

End Service.
End SellerShopService.

(** ** A MySQL session

    The connection state the row-level statements are run on: the three
    tables the UPDATE and SELECT texts read or write, with the columns
    those texts name.  The schema is not part of the sources, so what an
    INSERT answers once its parameters are bound (affected rows,
    AUTO_INCREMENT id) is a field of the session, as is the point at which
    the driver fails, if it does. *)

Module MySQL.

Inductive driver_op : Type := OpCursor | OpExecute | OpFetch | OpCursorExit.

Record product_row : Type := {
  product_id : Z;
  product_is_deleted : Z;
  product_code : option string      (* None is NULL *)
}.

Record customer_row : Type := {
  customer_account_id : Z;
  customer_name : pyval;
  customer_phone : pyval;
  customer_email : pyval
}.

Record account_row : Type := {
  account_id : Z;
  account_permission_type_id : pyval
}.

Record session : Type := {
  products : list product_row;
  customer_information : list customer_row;
  accounts : list account_row;
  found_rows : bool;                        (* client flag CLIENT.FOUND_ROWS *)
  insert_answer : statement -> Z * pyval;   (* affected rows and insert id *)
  fault : driver_op -> option exn;
  cursor : cursor_class;
  result_set : list pyval;                  (* rows not fetched yet *)
  insert_id : pyval
}.

Definition with_cursor_state (s : session) (cls : cursor_class)
  (rows : list pyval) (id : pyval) : session :=
  {| products := products s;
     customer_information := customer_information s;
     accounts := accounts s;
     found_rows := found_rows s;
     insert_answer := insert_answer s;
     fault := fault s;
     cursor := cls;
     result_set := rows;
     insert_id := id |}.

Definition with_products (s : session) (tbl : list product_row) : session :=
  {| products := tbl;
     customer_information := customer_information s;
     accounts := accounts s;
     found_rows := found_rows s;
     insert_answer := insert_answer s;
     fault := fault s;
     cursor := cursor s;
     result_set := result_set s;
     insert_id := insert_id s |}.

(** A parameter bound to an integer column, and to a text column. *)
Definition as_int (v : pyval) : option Z :=
  match v with
  | PyInt n => Some n
  | PyBool b => Some (if b then 1 else 0)
  | _ => None
  end.

Definition as_text (v : pyval) : option (option string) :=
  match v with
  | PyStr s => Some (Some s)
  | PyNone => Some None
  | _ => None
  end.

Definition same_text (a b : option string) : bool :=
  match a, b with
  | Some x, Some y => String.eqb x y
  | None, None => true
  | _, _ => false
  end.

(** [WHERE id = pid AND is_deleted = 0]. *)
Definition update_matches (pid : Z) (r : product_row) : bool :=
  (product_id r =? pid) && (product_is_deleted r =? 0).

(** [SET product_code = code] on the matching rows. *)
Definition update_row (pid : Z) (code : option string) (r : product_row) : product_row :=
  if update_matches pid r
  then {| product_id := product_id r;
          product_is_deleted := product_is_deleted r;
          product_code := code |}
  else r.

Definition update_changes (pid : Z) (code : option string) (r : product_row) : bool :=
  update_matches pid r && negb (same_text (product_code r) code).

(** The affected-rows count of the UPDATE: the rows matched under
    CLIENT.FOUND_ROWS, the rows whose value changed otherwise (the
    default of MySQL and of pymysql). *)
Definition update_affected (found : bool) (pid : Z) (code : option string)
  (tbl : list product_row) : Z :=
  Z.of_nat (List.length
    (List.filter (if found then update_matches pid else update_changes pid code) tbl)).

(** A fetched row under each cursor class. *)
Definition fetched (cls : cursor_class) (columns : list (string * pyval)) : pyval :=
  match cls with
  | DictCursor => PyDict columns
  | Cursor => PyTuple (List.map snd columns)
  end.

Definition select_customer (cls : cursor_class) (uid : Z)
  (tbl : list customer_row) : list pyval :=
  List.map
    (fun r => fetched cls [("name", customer_name r);
                           ("phone", customer_phone r);
                           ("email", customer_email r)])
    (List.filter (fun r => customer_account_id r =? uid) tbl).

Definition select_permission (cls : cursor_class) (uid : Z)
  (tbl : list account_row) : list pyval :=
  List.map
    (fun r => fetched cls [("permission_type_id", account_permission_type_id r)])
    (List.filter (fun r => account_id r =? uid) tbl).

Definition unsupported {A} (s : session) : outcome A * session :=
  (Raise (MySQLError 0 "parameter type outside the model"), s).

(** [%(name)s] placeholders take their values from a dict. *)
Definition named_parameter (args : pyval) (k : string) : outcome pyval :=
  match args with
  | PyDict entries =>
      match lookup k entries with
      | Some v => Return v
      | None => Raise (KeyError (PyStr k))
      end
  | _ => Raise (TypeError "format requires a mapping")
  end.

Definition run_update (args : pyval) (s : session) : outcome Z * session :=
  match named_parameter args "product_code" with
  | Raise e => (Raise e, s)
  | Return vcode =>
      match named_parameter args "product_id" with
      | Raise e => (Raise e, s)
      | Return vid =>
          match as_text vcode, as_int vid with
          | Some code, Some pid =>
              (Return (update_affected (found_rows s) pid code (products s)),
               with_cursor_state
                 (with_products s (List.map (update_row pid code) (products s)))
                 (cursor s) [] (PyInt 0))
          | _, _ => unsupported s
          end
      end
  end.

Definition run_select (rows : cursor_class -> Z -> list pyval) (args : pyval)
  (s : session) : outcome Z * session :=
  match as_int args with
  | Some uid =>
      (Return (Z.of_nat (List.length (rows (cursor s) uid))),
       with_cursor_state s (cursor s) (rows (cursor s) uid) (PyInt 0))
  | None => unsupported s
  end.

(** The [%(name)s] placeholders of each INSERT text, in the order of the
    text. *)
Definition placeholders (sql : statement) : list string :=
  match sql with
  | INSERT_products =>
      ["is_display"; "is_sale"; "main_category_id"; "sub_category_id";
       "is_product_notice"; "manufacturer"; "manufacturing_date";
       "product_origin_type_id"; "product_name"; "description";
       "detail_information"; "origin_price"; "discount_rate"; "discounted_price";
       "discount_start_date"; "discount_end_date"; "minimum_quantity";
       "maximum_quantity"; "seller_id"; "account_id"]
  | INSERT_product_images => ["image_url"; "product_id"; "order_index"]
  | INSERT_stocks =>
      ["product_option_code"; "remain"; "color_id"; "size_id"; "product_id"]
  | INSERT_product_histories =>
      ["product_id"; "product_name"; "is_display"; "is_sale"; "origin_price";
       "discounted_price"; "discount_rate"; "discount_start_date";
       "discount_end_date"; "minimum_quantity"; "maximum_quantity"; "account_id";
       "is_product_deleted"]
  | _ => []
  end.

(** The values the model binds: None, booleans, integers and strings. *)
Definition scalar (v : pyval) : bool :=
  match v with
  | PyNone | PyBool _ | PyInt _ | PyStr _ => true
  | _ => false
  end.

(** The first placeholder the dict leaves unbound. *)
Fixpoint first_unbound (names : list string) (entries : list (string * pyval))
  : option string :=
  match names with
  | [] => None
  | n :: rest =>
      match lookup n entries with
      | None => Some n
      | Some _ => first_unbound rest entries
      end
  end.

(** A row inserted into [products]: the INSERT text names neither
    [is_deleted] nor [product_code], which take their defaults, 0 (the
    UPDATE that follows it selects on [is_deleted = 0]) and NULL. *)
Definition inserted (sql : statement) (s : session) : session :=
  match sql, insert_answer s sql with
  | INSERT_products, (n, PyInt id) =>
      if 0 <? n
      then with_products s
             (products s ++ [{| product_id := id; product_is_deleted := 0;
                                product_code := None |}])
      else s
  | _, _ => s
  end.

(** An INSERT: the driver escapes every value of the dict, then formats
    the text with it, which raises KeyError at the first placeholder left
    unbound (nothing is sent); without arguments the text goes out
    unformatted and the server refuses it. *)
Definition run_insert (sql : statement) (args : pyval) (s : session)
  : outcome Z * session :=
  match args with
  | PyDict entries =>
      if forallb (fun kv => scalar (snd kv)) entries
      then match first_unbound (placeholders sql) entries with
           | Some k => (Raise (KeyError (PyStr k)), s)
           | None =>
               (Return (fst (insert_answer s sql)),
                with_cursor_state (inserted sql s) (cursor s) []
                  (snd (insert_answer s sql)))
           end
      else unsupported s
  | PyNone => (Raise (MySQLError 1064 "You have an error in your SQL syntax"), s)
  | _ => (Raise (TypeError "format requires a mapping"), s)
  end.

Definition session_execute (sql : statement) (args : pyval) (s : session)
  : outcome Z * session :=
  match fault s OpExecute with
  | Some e => (Raise e, s)
  | None =>
      match sql with
      | UPDATE_products_product_code => run_update args s
      | SELECT_customer_information =>
          run_select (fun cls uid => select_customer cls uid (customer_information s)) args s
      | SELECT_accounts_permission =>
          run_select (fun cls uid => select_permission cls uid (accounts s)) args s
      | _ => run_insert sql args s
      end
  end.

Definition session_cursor (cls : cursor_class) (s : session) : outcome unit * session :=
  match fault s OpCursor with
  | Some e => (Raise e, s)
  | None => (Return tt, with_cursor_state s cls [] PyNone)
  end.

Definition session_fetchone (s : session) : outcome pyval * session :=
  match fault s OpFetch with
  | Some e => (Raise e, s)
  | None =>
      match result_set s with
      | [] => (Return PyNone, s)
      | r :: rest => (Return r, with_cursor_state s (cursor s) rest (insert_id s))
      end
  end.

Definition session_exit (s : session) : outcome unit * session :=
  match fault s OpCursorExit with
  | Some e => (Raise e, s)
  | None => (Return tt, with_cursor_state s (cursor s) [] (insert_id s))
  end.

Definition driver : Driver session := {|
  cursor_open := session_cursor;
  cursor_execute := session_execute;
  cursor_lastrowid := insert_id;
  cursor_fetchone := session_fetchone;
  cursor_exit := session_exit
|}.

(** A session whose driver calls all go through. *)
Definition healthy (s : session) : Prop := forall op, fault s op = None.

(** The target row of the UPDATE is there and not soft-deleted. *)
Definition live_row (s : session) (pid : Z) : Prop :=
  exists r, In r (products s) /\ product_id r = pid /\ product_is_deleted r = 0.

(** The same, and the UPDATE changes the row: it holds another code, or
    the connection counts the rows matched. *)
Definition changed_row (s : session) (pid : Z) (code : option string) : Prop :=
  exists r, In r (products s) /\ product_id r = pid /\ product_is_deleted r = 0 /\
            (found_rows s = true \/ product_code r <> code).

(** A shop with two products, the second soft-deleted, one customer and
    two accounts, on a connection with pymysql's default flags; every
    INSERT is answered with one affected row and the id 7. *)
Definition shop : session := {|
  products := [ {| product_id := 1; product_is_deleted := 0;
                   product_code := Some "P0000000000000000001" |};
                {| product_id := 2; product_is_deleted := 1;
                   product_code := Some "P0000000000000000002" |} ];
  customer_information :=
    [ {| customer_account_id := 120; customer_name := PyStr "suhee";
         customer_phone := PyStr "01012341234";
         customer_email := PyStr "gosuhee@gmail.com" |} ];
  accounts := [ {| account_id := 120; account_permission_type_id := PyInt 3 |};
                {| account_id := 121; account_permission_type_id := PyInt 2 |} ];
  found_rows := false;
  insert_answer := fun _ => (1, PyInt 7);
  fault := fun _ => None;
  cursor := Cursor;
  result_set := [];
  insert_id := PyNone
|}.

(** A coat, its first stock and its first image, every placeholder of
    their INSERT texts bound. *)
Definition coat : pyval :=
  PyDict [("is_display", PyInt 1); ("is_sale", PyInt 1);
          ("main_category_id", PyInt 1); ("sub_category_id", PyInt 6);
          ("is_product_notice", PyInt 0); ("manufacturer", PyNone);
          ("manufacturing_date", PyNone); ("product_origin_type_id", PyNone);
          ("product_name", PyStr "coat"); ("description", PyStr "a warm coat");
          ("detail_information", PyStr "wool"); ("origin_price", PyInt 10000);
          ("discount_rate", PyInt 10); ("discounted_price", PyInt 9000);
          ("discount_start_date", PyNone); ("discount_end_date", PyNone);
          ("minimum_quantity", PyInt 1); ("maximum_quantity", PyInt 20);
          ("seller_id", PyInt 1); ("account_id", PyInt 1)].

Definition coat_stock : pyval :=
  PyDict [("product_option_code", PyStr "P0000000000000000007001");
          ("remain", PyInt 10); ("color_id", PyInt 1); ("size_id", PyInt 2);
          ("product_id", PyInt 7)].

End MySQL.

(** ** The server behind the views

    utils/connection.py ([get_connection]) and the services the views are
    given are not among the sources.  A view works on a [server]: the
    rows committed so far, the working copy of the open transaction, the
    handler's local variable [connection] (unbound until assigned),
    flask's [g], and a log of every call made on the connection. *)

Module Server.

Inductive event : Type :=
| EvGetConnection (database : pyval)
| EvService (method : string) (data : pyval)
| EvCommit
| EvRollback
| EvClose.

Inductive connection_op : Type := OpConnect | OpCommit | OpRollback | OpClose.

(** A pymysql connection object; it defines neither [__bool__] nor
    [__len__], so [if connection:] takes the branch. *)
Inductive connection_obj : Type := Connection (database : pyval).

Definition connection_truthy (c : connection_obj) : bool := true.

Section WithStore.
Context {Store : Type}.

Record server : Type := {
  committed : Store;
  transaction : option Store;
  connection : option connection_obj;
  g : list (string * pyval);
  fault : connection_op -> option exn;
  log : list event
}.

(** A service method called as [method(connection, data)]: it reads and
    writes rows through the connection's open transaction. *)
Definition service_method : Type := pyval -> Store -> outcome pyval * Store.

Definition logged (ev : event) (s : server) : server :=
  {| committed := committed s; transaction := transaction s;
     connection := connection s; g := g s; fault := fault s;
     log := log s ++ [ev] |}.

Definition set_transaction (t : option Store) (s : server) : server :=
  {| committed := committed s; transaction := t;
     connection := connection s; g := g s; fault := fault s;
     log := log s |}.

Definition set_committed (c : Store) (s : server) : server :=
  {| committed := c; transaction := transaction s;
     connection := connection s; g := g s; fault := fault s;
     log := log s |}.

Definition set_connection (c : connection_obj) (s : server) : server :=
  {| committed := committed s; transaction := transaction s;
     connection := Some c; g := g s; fault := fault s;
     log := log s |}.

(** Modelled from the spec: utils/connection.py is missing.  "Each request
    opens a connection": [get_connection(database)] answers a connection
    with a fresh transaction on the committed rows, or raises. *)
Definition get_connection (database : pyval) : M server connection_obj :=
  on_state (fun s =>
    let s1 := logged (EvGetConnection database) s in
    match fault s OpConnect with
    | Some e => (Raise e, s1)
    | None => (Return (Connection database), set_transaction (Some (committed s1)) s1)
    end).

(** [connection = value]: binds the local variable. *)
Definition assign_connection (c : connection_obj) : M server unit :=
  on_state (fun s => (Return tt, set_connection c s)).

(** Reading the local variable [connection]. *)
Definition load_connection : M server connection_obj :=
  on_state (fun s =>
    match connection s with
    | Some c => (Return c, s)
    | None => (Raise (UnboundLocalError "connection"), s)
    end).

(** Modelled from the spec: the connection object is pymysql's.
    "commits or rolls back, and closes the connection", with
    "single-connection transaction atomicity": [commit] publishes the
    working copy, [rollback] drops it, [close] ends the transaction
    without publishing; each may raise instead and then changes nothing. *)
Definition commit (c : connection_obj) : M server unit :=
  on_state (fun s =>
    let s1 := logged EvCommit s in
    match fault s OpCommit with
    | Some e => (Raise e, s1)
    | None =>
        match transaction s1 with
        | Some t => (Return tt, set_committed t s1)
        | None => (Return tt, s1)
        end
    end).

Definition rollback (c : connection_obj) : M server unit :=
  on_state (fun s =>
    let s1 := logged EvRollback s in
    match fault s OpRollback with
    | Some e => (Raise e, s1)
    | None =>
        match transaction s1 with
        | Some _ => (Return tt, set_transaction (Some (committed s1)) s1)
        | None => (Return tt, s1)
        end
    end).

Definition close (c : connection_obj) : M server unit :=
  on_state (fun s =>
    let s1 := logged EvClose s in
    match fault s OpClose with
    | Some e => (Raise e, s1)
    | None => (Return tt, set_transaction None s1)
    end).

(** [self.service.<name>(connection, data)]. *)
Definition call_service (name : string) (method : service_method)
  (c : connection_obj) (data : pyval) : M server pyval :=
  on_state (fun s =>
    let s1 := logged (EvService name data) s in
    match transaction s1 with
    | Some t =>
        match method data t with
        | (o, t') => (o, set_transaction (Some t') s1)
        end
    | None => (Raise (MySQLError 0 "Already closed"), s1)
    end).

(** [g.<name>]. *)
Definition g_attr (name : string) : M server pyval :=
  on_state (fun s =>
    match lookup name (g s) with
    | Some v => (Return v, s)
    | None => (Raise (AttributeError name), s)
    end).

End WithStore.
Arguments server : clear implicits.
Arguments service_method : clear implicits.

(** [args[i]] on the tuple of positional arguments. *)
Definition arg {S} (args : list pyval) (i : nat) : M S pyval :=
  match nth_error args i with
  | Some v => ret v
  | None => raise (IndexError "tuple index out of range")
  end.

(** [v[0]]. *)
Definition getitem0 {S} (v : pyval) : M S pyval :=
  match v with
  | PyList (x :: _) => ret x
  | PyList [] => raise (IndexError "list index out of range")
  | PyTuple (x :: _) => ret x
  | PyTuple [] => raise (IndexError "tuple index out of range")
  | PyStr (String c _) => ret (PyStr (String c EmptyString))
  | PyStr EmptyString => raise (IndexError "string index out of range")
  | PyDict _ => raise (KeyError (PyInt 0))
  | _ => raise (TypeError "object is not subscriptable")
  end.

End Server.
Export Server.

(** ** view/store/destination_view.py *)

Module DestinationView.
Section Views.
Context {Store : Type}.

Record Service : Type := {
  get_destination_detail_service : service_method Store;
  get_destination_detail_by_user_service : service_method Store;
  create_destination_service : service_method Store;
  delete_destination_service : service_method Store
}.

Record Self : Type := { service : Service; database : pyval }.

(** The [try] blocks, named after their handlers. *)
Definition DestinationDetailView_get_body (self : Self) (data : pyval)
  : M (server Store) pyval :=
  connection <- get_connection (database self) ;;
  assign_connection connection ;;;
  connection <- load_connection ;;
  destination_detail <-
    call_service "get_destination_detail_service"
      (get_destination_detail_service (service self)) connection data ;;
  first <- getitem0 destination_detail ;;
  ret (PyDict [("message", PyStr "success"); ("result", first)]).

Definition DestinationDetailView_get (self : Self) (destination_id : pyval)
  : M (server Store) pyval :=
  let data := PyDict [("destination_id", destination_id)] in
  try_finally
    (try_except
       (DestinationDetailView_get_body self data)
       (fun e => raise e))
    (try_except
       (connection <- load_connection ;;
        if connection_truthy connection then close connection else ret tt)
       (fun _ => raise (DatabaseCloseFail "database_close_failed"))).

Definition DestinationView_get_body (self : Self) (data : pyval)
  : M (server Store) pyval :=
  connection <- get_connection (database self) ;;
  assign_connection connection ;;;
  connection <- load_connection ;;
  destination_detail <-
    call_service "get_destination_detail_by_user_service"
      (get_destination_detail_by_user_service (service self)) connection data ;;
  ret (PyDict [("message", PyStr "success"); ("result", destination_detail)]).

Definition DestinationView_get (self : Self) : M (server Store) pyval :=
  let account_id := PyInt 120 in
  let data := PyDict [("account_id", account_id)] in
  try_finally
    (try_except
       (DestinationView_get_body self data)
       (fun e => raise e))
    (try_except
       (connection <- load_connection ;;
        if connection_truthy connection then close connection else ret tt)
       (fun _ => raise (DatabaseCloseFail "database_close_failed"))).

Definition DestinationView_post_body (self : Self) (data : pyval)
  : M (server Store) pyval :=
  connection <- get_connection (database self) ;;
  assign_connection connection ;;;
  connection <- load_connection ;;
  call_service "create_destination_service"
    (create_destination_service (service self)) connection data ;;;
  connection <- load_connection ;;
  commit connection ;;;
  ret (PyDict [("message", PyStr "success")]).

Definition DestinationView_post_data (args : list pyval) : M (server Store) pyval :=
  a0 <- arg args 0 ;;
  a1 <- arg args 1 ;;
  a2 <- arg args 2 ;;
  a3 <- arg args 3 ;;
  a4 <- arg args 4 ;;
  a5 <- arg args 5 ;;
  ret (PyDict [("user_id", a0); ("recipient", a1); ("phone", a2);
               ("address1", a3); ("address2", a4); ("post_number", a5)]).

Definition DestinationView_post (self : Self) (args : list pyval)
  : M (server Store) pyval :=
  data <- DestinationView_post_data args ;;
  try_finally
    (try_except
       (DestinationView_post_body self data)
       (fun e => connection <- load_connection ;;
                 rollback connection ;;;
                 raise e))
    (try_except
       (connection <- load_connection ;;
        if connection_truthy connection then close connection else ret tt)
       (fun _ => raise (DatabaseCloseFail "database close fail"))).

Definition DestinationView_delete_body (self : Self) (data : pyval)
  : M (server Store) pyval :=
  connection <- get_connection (database self) ;;
  assign_connection connection ;;;
  connection <- load_connection ;;
  call_service "delete_destination_service"
    (delete_destination_service (service self)) connection data ;;;
  connection <- load_connection ;;
  commit connection ;;;
  ret (PyDict [("message", PyStr "success")]).

Definition DestinationView_delete (self : Self) (args : list pyval)
  : M (server Store) pyval :=
  let account_id := PyInt 120 in
  a0 <- arg args 0 ;;
  let data := PyDict [("destination_id", a0); ("account_id", account_id)] in
  try_finally
    (try_except
       (DestinationView_delete_body self data)
       (fun e => connection <- load_connection ;;
                 rollback connection ;;;
                 raise e))
    (try_except
       (connection <- load_connection ;;
        if connection_truthy connection then close connection else ret tt)
       (fun _ => raise (DatabaseCloseFail "database close fail"))).

End Views.
Arguments Service : clear implicits.
Arguments Self : clear implicits.
End DestinationView.

(** ** view/store/store_order_view.py *)

Module StoreOrderView.
Section Views.
Context {Store : Type}.

Record Service : Type := {
  get_store_order_service : service_method Store;
  post_order_service : service_method Store
}.

Record Self : Type := { service : Service; database : pyval }.

Definition StoreOrderView_get_body (self : Self) (data : pyval)
  : M (server Store) pyval :=
  connection <- get_connection (database self) ;;
  assign_connection connection ;;;
  connection <- load_connection ;;
  store_order_info <-
    call_service "get_store_order_service"
      (get_store_order_service (service self)) connection data ;;
  ret (PyResponse (PyDict [("message", PyStr "success"); ("result", store_order_info)])).

Definition StoreOrderView_get (self : Self) (args : list pyval)
  : M (server Store) pyval :=
  a0 <- arg args 0 ;;
  account_id <- g_attr "account_id" ;;
  permission_type_id <- g_attr "permission_type_id" ;;
  let data := PyDict [("order_id", a0); ("user_id", account_id);
                      ("user_permission", permission_type_id)] in
  try_finally
    (try_except
       (StoreOrderView_get_body self data)
       (fun e => raise e))
    (try_except
       (connection <- load_connection ;;
        if connection_truthy connection then close connection else ret tt)
       (fun _ => raise (DatabaseCloseFail "database close fail"))).

Definition StoreOrderAddView_post_body (self : Self) (data : pyval)
  : M (server Store) pyval :=
  connection <- get_connection (database self) ;;
  assign_connection connection ;;;
  connection <- load_connection ;;
  order_id <-
    call_service "post_order_service"
      (post_order_service (service self)) connection data ;;
  connection <- load_connection ;;
  commit connection ;;;
  ret (PyTuple [PyDict [("message", PyStr "success");
                        ("result", PyDict [("order_id", order_id)])];
                PyInt 201]).

Definition post_keys : list string :=
  ["cart_id"; "product_id"; "stock_id"; "quantity"; "original_price"; "sale";
   "discounted_price"; "total_price"; "sold_out"; "sender_name"; "sender_phone";
   "sender_email"; "recipient_name"; "recipient_phone"; "address1"; "address2";
   "post_number"; "delivery_memo_type_id"; "delivery_content"].

(** The entries ['cart_id': args[0], ..., 'delivery_content': args[18]],
    evaluated in order. *)
Fixpoint positional (keys : list string) (args : list pyval) (i : nat)
  : M (server Store) (list (string * pyval)) :=
  match keys with
  | [] => ret []
  | k :: rest =>
      v <- arg args i ;;
      entries <- positional rest args (S i) ;;
      ret ((k, v) :: entries)
  end.

Definition StoreOrderAddView_post_data (args : list pyval) : M (server Store) pyval :=
  account_id <- g_attr "account_id" ;;
  permission_type_id <- g_attr "permission_type_id" ;;
  entries <- positional post_keys args 0 ;;
  ret (PyDict (("user_id", account_id) :: ("user_permission", permission_type_id)
               :: entries)).

Definition StoreOrderAddView_post (self : Self) (args : list pyval)
  : M (server Store) pyval :=
  data <- StoreOrderAddView_post_data args ;;
  try_finally
    (try_except
       (StoreOrderAddView_post_body self data)
       (fun e => connection <- load_connection ;;
                 rollback connection ;;;
                 raise e))
    (try_except
       (connection <- load_connection ;;
        if connection_truthy connection then close connection else ret tt)
       (fun _ => raise (DatabaseCloseFail "database close fail"))).

End Views.
Arguments Service : clear implicits.
Arguments Self : clear implicits.
End StoreOrderView.

(** ** The six handlers together *)

Module Handlers.

Inductive handler : Type :=
| DestinationDetail_get
| Destination_get
| Destination_post
| Destination_delete
| StoreOrder_get
| StoreOrderAdd_post.

(** The handlers that write: their [except] clause calls
    [connection.rollback()]; the others only re-raise. *)
Definition is_write (h : handler) : bool :=
  match h with
  | Destination_post | Destination_delete | StoreOrderAdd_post => true
  | DestinationDetail_get | Destination_get | StoreOrder_get => false
  end.

(** The message of the handler's [DatabaseCloseFail]. *)
Definition close_message (h : handler) : string :=
  match h with
  | DestinationDetail_get | Destination_get => "database_close_failed"
  | _ => "database close fail"
  end.

Section WithStore.
Context {Store : Type}.

Record App : Type := {
  destination : DestinationView.Self Store;
  store_order : StoreOrderView.Self Store
}.

(** A call starts with a fresh frame: [connection] is unbound. *)
Definition new_frame : M (server Store) unit :=
  on_state (fun s =>
    (Return tt,
     {| committed := committed s; transaction := transaction s;
        connection := None; g := g s; fault := fault s; log := log s |})).

(** The framework calling the handler's method with its arguments. *)
Definition run (app : App) (h : handler) (args : list pyval)
  : M (server Store) pyval :=
  new_frame ;;;
  match h with
  | DestinationDetail_get =>
      destination_id <- arg args 0 ;;
      DestinationView.DestinationDetailView_get (destination app) destination_id
  | Destination_get => DestinationView.DestinationView_get (destination app)
  | Destination_post => DestinationView.DestinationView_post (destination app) args
  | Destination_delete => DestinationView.DestinationView_delete (destination app) args
  | StoreOrder_get => StoreOrderView.StoreOrderView_get (store_order app) args
  | StoreOrderAdd_post => StoreOrderView.StoreOrderAddView_post (store_order app) args
  end.

(** The [data] dict each handler builds before its [try]. *)
Definition data_of (h : handler) (args : list pyval) : M (server Store) pyval :=
  match h with
  | DestinationDetail_get =>
      destination_id <- arg args 0 ;;
      ret (PyDict [("destination_id", destination_id)])
  | Destination_get => ret (PyDict [("account_id", PyInt 120)])
  | Destination_post => DestinationView.DestinationView_post_data args
  | Destination_delete =>
      a0 <- arg args 0 ;;
      ret (PyDict [("destination_id", a0); ("account_id", PyInt 120)])
  | StoreOrder_get =>
      a0 <- arg args 0 ;;
      account_id <- g_attr "account_id" ;;
      permission_type_id <- g_attr "permission_type_id" ;;
      ret (PyDict [("order_id", a0); ("user_id", account_id);
                   ("user_permission", permission_type_id)])
  | StoreOrderAdd_post => StoreOrderView.StoreOrderAddView_post_data args
  end.

(** The handler's [try] block. *)
Definition body (app : App) (h : handler) : pyval -> M (server Store) pyval :=
  match h with
  | DestinationDetail_get =>
      DestinationView.DestinationDetailView_get_body (destination app)
  | Destination_get => DestinationView.DestinationView_get_body (destination app)
  | Destination_post => DestinationView.DestinationView_post_body (destination app)
  | Destination_delete => DestinationView.DestinationView_delete_body (destination app)
  | StoreOrder_get => StoreOrderView.StoreOrderView_get_body (store_order app)
  | StoreOrderAdd_post => StoreOrderView.StoreOrderAddView_post_body (store_order app)
  end.

(** The service method the handler calls. *)
Definition service_of (app : App) (h : handler) : service_method Store :=
  match h with
  | DestinationDetail_get =>
      DestinationView.get_destination_detail_service
        (DestinationView.service (destination app))
  | Destination_get =>
      DestinationView.get_destination_detail_by_user_service
        (DestinationView.service (destination app))
  | Destination_post =>
      DestinationView.create_destination_service
        (DestinationView.service (destination app))
  | Destination_delete =>
      DestinationView.delete_destination_service
        (DestinationView.service (destination app))
  | StoreOrder_get =>
      StoreOrderView.get_store_order_service
        (StoreOrderView.service (store_order app))
  | StoreOrderAdd_post =>
      StoreOrderView.post_order_service
        (StoreOrderView.service (store_order app))
  end.

Definition database_of (app : App) (h : handler) : pyval :=
  match h with
  | DestinationDetail_get | Destination_get | Destination_post | Destination_delete =>
      DestinationView.database (destination app)
  | StoreOrder_get | StoreOrderAdd_post =>
      StoreOrderView.database (store_order app)
  end.

Definition service_name (h : handler) : string :=
  match h with
  | DestinationDetail_get => "get_destination_detail_service"
  | Destination_get => "get_destination_detail_by_user_service"
  | Destination_post => "create_destination_service"
  | Destination_delete => "delete_destination_service"
  | StoreOrder_get => "get_store_order_service"
  | StoreOrderAdd_post => "post_order_service"
  end.

(** The handler's [except Exception as e] clause. *)
Definition except_clause (h : handler) (e : exn) : M (server Store) pyval :=
  if is_write h
  then connection <- load_connection ;;
       rollback connection ;;;
       raise e
  else raise e.

(** The handler's [finally] clause. *)
Definition finally_clause (h : handler) : M (server Store) unit :=
  try_except
    (connection <- load_connection ;;
     if connection_truthy connection then close connection else ret tt)
    (fun _ => raise (DatabaseCloseFail (close_message h))).

(** The handler's whole [try] statement, given its [data]. *)
Definition protected (app : App) (h : handler) (data : pyval)
  : M (server Store) pyval :=
  try_finally
    (try_except (body app h data) (except_clause h))
    (finally_clause h).

(** The server once [get_connection] has answered and [connection] is
    bound, and once the service has then left the transaction as [t]. *)
Definition connected (app : App) (h : handler) (s : server Store) : server Store :=
  set_connection (Connection (database_of app h))
    (set_transaction (Some (committed s))
       (logged (EvGetConnection (database_of app h)) s)).

Definition served (app : App) (h : handler) (data : pyval) (t : Store)
  (s : server Store) : server Store :=
  set_transaction (Some t)
    (logged (EvService (service_name h) data) (connected app h s)).

(** The world after the cleanup of a failed [try] block whose
    [connection] is bound. *)
Definition cleaned (h : handler) (c : connection_obj) (w : world (server Store))
  : world (server Store) :=
  snd (close c (if is_write h then snd (rollback c w) else w)).

(** The world a call starts in: that of the caller, in a fresh frame. *)
Definition fresh (w : world (server Store)) : world (server Store) :=
  snd (new_frame w).

(** What a run appended to the log. *)
Definition appended (before after : world (server Store)) (tr : list event) : Prop :=
  log (state after) = (log (state before) ++ tr)%list.

Definition rolled_back (before after : world (server Store)) : Prop :=
  exists tr, appended before after tr /\ In EvRollback tr.

Definition close_attempted (before after : world (server Store)) : Prop :=
  exists tr, appended before after tr /\ In EvClose tr.

(** "For every exception raised during its body the handler rolls back
    the open transaction, attempts to close the connection and ends in an
    error": read on a run in which the connection was obtained and the
    service raised. *)
Definition rolls_back_and_closes (app : App) (h : handler) (args : list pyval)
  (w : world (server Store)) : Prop :=
  rolled_back w (snd (run app h args w)) /\
  close_attempted w (snd (run app h args w)) /\
  exists e, fst (run app h args w) = Raise e.

End WithStore.
Arguments App : clear implicits.

(** *** A sample application

    The store is the list of committed destination rows (their ids). *)

Definition idle (rows : list Z) : server (list Z) := {|
  committed := rows;
  transaction := None;
  connection := None;
  g := [("account_id", PyInt 120); ("permission_type_id", PyInt 3)];
  fault := fun _ => None;
  log := []
|}.

(** The same server, its database unreachable. *)
Definition unreachable (rows : list Z) : server (list Z) := {|
  committed := rows;
  transaction := None;
  connection := None;
  g := [("account_id", PyInt 120); ("permission_type_id", PyInt 3)];
  fault := fun op => match op with
                     | OpConnect => Some (MySQLError 2003 "Can't connect to MySQL server")
                     | _ => None
                     end;
  log := []
|}.

(** A destination service over that store: details of a destination that
    is not there are an error or an empty sequence, by [strict]; creating
    one adds two rows; deleting one that is not there fails after having
    written. *)
Definition sample_destination_service (strict : bool)
  : DestinationView.Service (list Z) := {|
  DestinationView.get_destination_detail_service := fun data rows =>
    match data with
    | PyDict [("destination_id", PyInt n)] =>
        if existsb (Z.eqb n) rows
        then (Return (PyList [PyDict [("id", PyInt n)]]), rows)
        else if strict
             then (Raise (CustomError "DestinationNotExist" "destination_does_not_exist"), rows)
             else (Return (PyTuple []), rows)
    | _ => (Raise (KeyError (PyStr "destination_id")), rows)
    end;
  DestinationView.get_destination_detail_by_user_service := fun data rows =>
    (Return (PyList (List.map PyInt rows)), rows);
  DestinationView.create_destination_service := fun data rows =>
    (Return PyNone, (rows ++ [100; 101])%list);
  DestinationView.delete_destination_service := fun data rows =>
    (Raise (CustomError "DestinationNotExist" "destination_does_not_exist"),
     (rows ++ [0])%list)
|}.

Definition sample_order_service : StoreOrderView.Service (list Z) := {|
  StoreOrderView.get_store_order_service := fun data rows =>
    (Return (PyDict [("order_number", PyStr "20210101000001000")]), rows);
  StoreOrderView.post_order_service := fun data rows =>
    (Return (PyInt 55), (rows ++ [55])%list)
|}.

Definition sample_app (strict : bool) : App (list Z) := {|
  destination := {| DestinationView.service := sample_destination_service strict;
                    DestinationView.database := PyStr "brandi" |};
  store_order := {| StoreOrderView.service := sample_order_service;
                    StoreOrderView.database := PyStr "brandi" |}
|}.

Definition sample_destination : list pyval :=
  [PyStr "120"; PyStr "kim"; PyStr "01012341234"; PyStr "seoul"; PyStr "101";
   PyStr "12345"].

End Handlers.

(** ** Request validation *)

Module Validator.

Inductive rule : Type :=
| NumberRule | PhoneRule | PostalCodeRule | EmailRule | DecimalRule.

Inductive location : Type := JSON | PATH.

Inductive value_type : Type := Tstr | Tint | Tbool.

Record Param : Type := {
  name : string;
  source : location;
  type_ : value_type;
  rules : list rule;
  required : bool
}.

(** [Param(name, source, type, rules=rules)]; [required] defaults to True. *)
Definition mkParam (n : string) (l : location) (t : value_type) (rs : list rule) : Param :=
  {| name := n; source := l; type_ := t; rules := rs; required := true |}.

Record request : Type := {
  json : list (string * pyval);
  path : list (string * pyval)
}.

Definition values (req : request) (l : location) : list (string * pyval) :=
  match l with JSON => json req | PATH => path req end.

Definition has_type (t : value_type) (v : pyval) : bool :=
  match t, v with
  | Tstr, PyStr _ => true
  | Tint, PyInt _ => true
  | Tbool, PyBool _ => true
  | _, _ => false
  end.

Section Rules.
(** utils/rules.py is missing: what each rule accepts is a parameter. *)
Variable accepts : rule -> string -> bool.

Definition rule_accepts (r : rule) (v : pyval) : bool :=
  match v with
  | PyStr s => accepts r s
  | _ => false
  end.

(** The value of a well-formed parameter, [None] for a malformed one. *)
Definition check_param (p : Param) (req : request) : option pyval :=
  match lookup (name p) (values req (source p)) with
  | None => if required p then None else Some PyNone
  | Some v =>
      if has_type (type_ p) v && forallb (fun r => rule_accepts r v) (rules p)
      then Some v
      else None
  end.

(** The names of the malformed parameters and the values of the others. *)
Fixpoint collect (params : list Param) (req : request) : list string * list pyval :=
  match params with
  | [] => ([], [])
  | p :: rest =>
      match check_param p req, collect rest req with
      | None, (errors, vals) => (name p :: errors, vals)
      | Some v, (errors, vals) => (errors, v :: vals)
      end
  end.

(** Modelled from the spec: flask_request_validator's decorator is not
    among the sources.  "Each view is validate input shape, build a data
    dict, call service", the parameters being "validated against simple
    rules", and "validation rejects malformed inputs before reaching the
    database": the wrapped method runs on the validated values only when
    no parameter is malformed; otherwise the decorator raises. *)
Definition validate_params {S A} (params : list Param)
  (func : list pyval -> M S A) (req : request) : M S A :=
  match collect params req with
  | ([], vals) => func vals
  | (errors, _) => raise (InvalidRequest errors)
  end.

(** utils/decorator.py is missing: [signin] is whatever
    [signin_decorator(True)] does before it calls the wrapped function. *)
Definition signin_decorator {S A} (signin : M S unit)
  (func : request -> M S A) (req : request) : M S A :=
  signin ;;; func req.

(** The decorator lists of destination_view.py. *)
Definition DestinationView_post_params : list Param :=
  [ mkParam "user_id" JSON Tstr [NumberRule];
    mkParam "recipient" JSON Tstr [];
    mkParam "phone" JSON Tstr [PhoneRule];
    mkParam "address1" JSON Tstr [];
    mkParam "address2" JSON Tstr [];
    mkParam "post_number" JSON Tstr [PostalCodeRule] ].

Definition DestinationView_delete_params : list Param :=
  [ mkParam "destination_id" JSON Tstr [NumberRule] ].

(** The decorator lists of store_order_view.py. *)
Definition StoreOrderView_get_params : list Param :=
  [ mkParam "order_id" PATH Tint [] ].

Definition StoreOrderAddView_post_params : list Param :=
  [ mkParam "cartId" JSON Tint [];
    mkParam "productId" JSON Tint [];
    mkParam "stockId" JSON Tint [];
    mkParam "quantity" JSON Tint [];
    mkParam "originalPrice" JSON Tint [];
    mkParam "sale" JSON Tstr [DecimalRule];
    mkParam "discountedPrice" JSON Tint [];
    mkParam "totalPrice" JSON Tint [];
    mkParam "soldOut" JSON Tbool [];
    mkParam "senderName" JSON Tstr [];
    mkParam "senderPhone" JSON Tstr [PhoneRule];
    mkParam "senderEmail" JSON Tstr [EmailRule];
    mkParam "recipientName" JSON Tstr [];
    mkParam "recipientPhone" JSON Tstr [PhoneRule];
    mkParam "address1" JSON Tstr [];
    mkParam "address2" JSON Tstr [];
    mkParam "postNumber" JSON Tstr [PostalCodeRule];
    mkParam "deliveryId" JSON Tint [];
    {| name := "deliveryMemo"; source := JSON; type_ := Tstr; rules := [];
       required := false |} ].

Context {Store : Type}.

(** The decorated methods. *)
Definition DestinationView_post_route (self : DestinationView.Self Store)
  : request -> M (server Store) pyval :=
  validate_params DestinationView_post_params
    (DestinationView.DestinationView_post self).

Definition DestinationView_delete_route (self : DestinationView.Self Store)
  : request -> M (server Store) pyval :=
  validate_params DestinationView_delete_params
    (DestinationView.DestinationView_delete self).

Definition StoreOrderView_get_route (signin : M (server Store) unit)
  (self : StoreOrderView.Self Store) : request -> M (server Store) pyval :=
  signin_decorator signin
    (validate_params StoreOrderView_get_params
       (StoreOrderView.StoreOrderView_get self)).

Definition StoreOrderAddView_post_route (signin : M (server Store) unit)
  (self : StoreOrderView.Self Store) : request -> M (server Store) pyval :=
  signin_decorator signin
    (validate_params StoreOrderAddView_post_params
       (StoreOrderView.StoreOrderAddView_post self)).

(** A request is malformed for a parameter list when one of the listed
    parameters is there as a string that one of its rules rejects. *)
Definition malformed (params : list Param) (req : request) : Prop :=
  exists p r s,
    In p params /\ In r (rules p) /\
    lookup (name p) (values req (source p)) = Some (PyStr s) /\
    accepts r s = false.

End Rules.

(** Sample rules: digits only, except for e-mail addresses, which need an
    at sign. *)
Fixpoint all_digits (s : string) : bool :=
  match s with
  | EmptyString => true
  | String c rest =>
      (48 <=? Z.of_nat (Ascii.nat_of_ascii c)) && (Z.of_nat (Ascii.nat_of_ascii c) <=? 57)
      && all_digits rest
  end.

Fixpoint has_at (s : string) : bool :=
  match s with
  | EmptyString => false
  | String c rest => Ascii.eqb c "@"%char || has_at rest
  end.

Definition sample_rules (r : rule) (s : string) : bool :=
  match r with
  | EmailRule => has_at s
  | _ => negb (String.eqb s "") && all_digits s
  end.

(** A destination whose phone number has letters in it, and an order whose
    e-mail address has no at sign. *)
Definition bad_destination : request := {|
  json := [("user_id", PyStr "120"); ("recipient", PyStr "kim");
           ("phone", PyStr "010-abcd-1234"); ("address1", PyStr "seoul");
           ("address2", PyStr "101"); ("post_number", PyStr "12345")];
  path := []
|}.

Definition bad_order : request := {|
  json := [("cartId", PyInt 1); ("sale", PyStr "10");
           ("senderPhone", PyStr "01012341234"); ("senderEmail", PyStr "gosuhee")];
  path := []
|}.

End Validator.

(** ** What the properties below speak of *)

Module Conduct.

Section Driven.
Context {C : Type} (drv : Driver C).

(** The connection after [connection.cursor(cls)], one
    [cursor.execute(sql, args)] and the cursor's exit, in that order; after
    the failed [connection.cursor(cls)] alone when that raises. *)
Definition driven (cls : cursor_class) (sql : statement) (args : pyval) (c : C) : C :=
  match cursor_open drv cls c with
  | (Raise _, c1) => c1
  | (Return _, c1) => snd (cursor_exit drv (snd (cursor_execute drv sql args c1)))
  end.

(** The connection after [connection.cursor(cls)] and the cursor's exit,
    nothing executed in between. *)
Definition opened_and_left (cls : cursor_class) (c : C) : C :=
  match cursor_open drv cls c with
  | (Raise _, c1) => c1
  | (Return _, c1) => snd (cursor_exit drv c1)
  end.

End Driven.

(** [v[0]] depends on [v] alone. *)
Definition first_item (v : pyval) : outcome pyval :=
  fst (getitem0 v (World tt [])).

(** What a handler answers once its service has returned [v] (and, for a
    write handler, the commit has gone through): the [return] expression
    of its [try] block. *)
Definition read_response (h : Handlers.handler) (v : pyval) : outcome pyval :=
  match h with
  | Handlers.DestinationDetail_get =>
      match first_item v with
      | Return first => Return (PyDict [("message", PyStr "success"); ("result", first)])
      | Raise e => Raise e
      end
  | Handlers.StoreOrder_get =>
      Return (PyResponse (PyDict [("message", PyStr "success"); ("result", v)]))
  | _ => Return (PyDict [("message", PyStr "success"); ("result", v)])
  end.

Definition write_response (h : Handlers.handler) (v : pyval) : pyval :=
  match h with
  | Handlers.StoreOrderAdd_post =>
      PyTuple [PyDict [("message", PyStr "success");
                       ("result", PyDict [("order_id", v)])];
               PyInt 201]
  | _ => PyDict [("message", PyStr "success")]
  end.

Section Closing.
Context {Store : Type}.

(** What the [finally] clause makes of an outcome [o] on a server [s]
    whose connection is bound. *)
Definition closing (h : Handlers.handler) (o : outcome pyval) (s : server Store)
  : outcome pyval :=
  match fault s OpClose with
  | Some _ => Raise (DatabaseCloseFail (Handlers.close_message h))
  | None => o
  end.

(** What the [except] and [finally] clauses make of an exception [e]
    raised in the [try] block, the connection being bound. *)
Definition failing (h : Handlers.handler) (e : exn) (s : server Store)
  : outcome pyval :=
  closing h
    (if Handlers.is_write h
     then match fault s OpRollback with
          | Some e' => Raise e'
          | None => Raise e
          end
     else Raise e) s.

End Closing.

(** The sample server with a connection that cannot be closed. *)
Definition unclosable (rows : list Z) : server (list Z) := {|
  committed := rows;
  transaction := None;
  connection := None;
  g := [("account_id", PyInt 120); ("permission_type_id", PyInt 3)];
  fault := fun op => match op with
                     | OpClose => Some (MySQLError 2013 "Lost connection to MySQL server")
                     | _ => None
                     end;
  log := []
|}.

(** The value the validator hands over for a parameter: the one found
    under its name, None for an absent optional parameter. *)
Definition param_value (req : Validator.request) (p : Validator.Param) : pyval :=
  match lookup (Validator.name p) (Validator.values req (Validator.source p)) with
  | Some v => v
  | None => PyNone
  end.

Definition json_value (req : Validator.request) (name : string) : pyval :=
  match lookup name (Validator.json req) with
  | Some v => v
  | None => PyNone
  end.

(** The keys of [data] and the JSON parameters they are filled from, as
    the decorator lists and the [args[i]] of the two POST handlers pair
    them. *)
Definition destination_fields : list (string * string) :=
  [("user_id", "user_id"); ("recipient", "recipient"); ("phone", "phone");
   ("address1", "address1"); ("address2", "address2");
   ("post_number", "post_number")].

Definition order_fields : list (string * string) :=
  [("cart_id", "cartId"); ("product_id", "productId"); ("stock_id", "stockId");
   ("quantity", "quantity"); ("original_price", "originalPrice"); ("sale", "sale");
   ("discounted_price", "discountedPrice"); ("total_price", "totalPrice");
   ("sold_out", "soldOut"); ("sender_name", "senderName");
   ("sender_phone", "senderPhone"); ("sender_email", "senderEmail");
   ("recipient_name", "recipientName"); ("recipient_phone", "recipientPhone");
   ("address1", "address1"); ("address2", "address2"); ("post_number", "postNumber");
   ("delivery_memo_type_id", "deliveryId"); ("delivery_content", "deliveryMemo")].

(** Each key of [entries] holds the value of its JSON parameter. *)
Definition carried (fields : list (string * string)) (req : Validator.request)
  (entries : list (string * pyval)) : Prop :=
  Forall (fun kp => lookup (fst kp) entries = Some (json_value req (snd kp))) fields.

(** A well-formed destination. *)
Definition good_destination : Validator.request := {|
  Validator.json := [("user_id", PyStr "120"); ("recipient", PyStr "kim");
                     ("phone", PyStr "01012341234"); ("address1", PyStr "seoul");
                     ("address2", PyStr "101"); ("post_number", PyStr "12345")];
  Validator.path := []
|}.

(** A sample seller-shop DAO over a dict of sellers: every method looks
    its seller up by the 'seller_id' of [data]. *)
Definition sample_seller_dao : SellerShopService.SellerShopDao (list (string * pyval)) :=
  let find : pyval -> M (list (string * pyval)) pyval := fun data =>
    bind (getitem data "seller_id") (fun id =>
    match id with
    | PyStr name =>
        fun w => match lookup name (state w) with
                 | Some v => (Return v, w)
                 | None => (Raise (CustomError "SellerNotExist" "seller_does_not_exist"), w)
                 end
    | _ => raise (TypeError "seller_id must be a string")
    end) in
  {| SellerShopService.get_seller_info_dao := find;
     SellerShopService.get_seller_product_search_dao := find;
     SellerShopService.get_seller_category_dao := find;
     SellerShopService.get_seller_product_list_dao := find |}.

End Conduct.
(** * Properties *)

(** ** The [with] block and the [try] statements, run *)

Section Blocks.
Context {C : Type} (drv : Driver C).

Lemma with_cursor_fails {A} (cls : cursor_class) (body : M C A) (w : world C) e c1 :
  cursor_open drv cls (state w) = (Raise e, c1) ->
  with_cursor drv cls body w = (Raise e, World c1 (stderr w)).
Proof.
  intros H. unfold with_cursor, bind, on_state. rewrite H. reflexivity.
Qed.

Lemma with_cursor_runs {A} (cls : cursor_class) (body : M C A) (w : world C) c1 o w2 :
  cursor_open drv cls (state w) = (Return tt, c1) ->
  body (World c1 (stderr w)) = (o, w2) ->
  with_cursor drv cls body w =
    match cursor_exit drv (state w2) with
    | (Return _, c3) => (o, World c3 (stderr w2))
    | (Raise e, c3) => (Raise e, World c3 (stderr w2))
    end.
Proof.
  intros Hopen Hbody. unfold with_cursor, bind, on_state, try_finally.
  rewrite Hopen, Hbody.
  destruct (cursor_exit drv (state w2)) as [[u|e] c3]; reflexivity.
Qed.

Lemma execute_run (sql : statement) (args : pyval) (w : world C) :
  execute drv sql args w =
    (fst (cursor_execute drv sql args (state w)),
     World (snd (cursor_execute drv sql args (state w))) (stderr w)).
Proof.
  unfold execute, on_state.
  destruct (cursor_execute drv sql args (state w)); reflexivity.
Qed.

End Blocks.

(** ** create_product_dao.py *)

Module CreateProductDaoSpec.
Import CreateProductDao.

Section Generic.
Context {C : Type} (drv : Driver C).

(** The block under [with] of the four insert methods, in one shape. *)
Lemma insert_block (m : insert_method) (data : pyval) (w : world C) :
  call drv m data w =
    with_cursor drv Cursor
      (bind (execute drv (statement_of m) data) (fun n =>
       bind (lastrowid drv) (fun id =>
       if succeeded m n id then ret (result_of m id) else raise (denied m)))) w.
Proof.
  destruct m; unfold call, insert_product, insert_product_image, insert_stock,
    insert_product_history, statement_of, succeeded, result_of, denied;
    unfold with_cursor, bind, try_finally, lastrowid;
    destruct (on_state (cursor_open drv Cursor) w) as [[u|e] w1]; try reflexivity;
    destruct (execute drv _ data w1) as [[n|e] w2]; try reflexivity;
    cbv beta iota;
    match goal with |- context [truthy ?v] => destruct (truthy v) end; reflexivity.
Qed.

(** What the block does once [execute] has answered. *)
Lemma insert_block_run (m : insert_method) (data : pyval) (w : world C) o c2 :
  cursor_execute drv (statement_of m) data (state w) = (o, c2) ->
  bind (execute drv (statement_of m) data) (fun n =>
    bind (lastrowid drv) (fun id =>
    if succeeded m n id then ret (result_of m id) else raise (denied m))) w =
  (match o with
   | Return n =>
       if succeeded m n (cursor_lastrowid drv c2)
       then Return (result_of m (cursor_lastrowid drv c2))
       else Raise (denied m)
   | Raise e => Raise e
   end, World c2 (stderr w)).
Proof.
  intros H. unfold bind. rewrite execute_run, H. simpl.
  destruct o as [n|e]; [|reflexivity].
  unfold lastrowid. simpl.
  destruct (succeeded m n (cursor_lastrowid drv c2)); reflexivity.
Qed.

(** C1, as amended.  Whatever the driver does, an insert method ends in
    one of four ways: an exception raised by [connection.cursor()], by
    [execute] or by the cursor's exit propagates unchanged; otherwise the
    method tests [cursor.lastrowid] (insert_product, insert_product_image)
    or the affected-row count (insert_stock, insert_product_history) and
    raises its own creation-denied error when the tested value is falsy;
    on success insert_product returns the id and the other three return
    None. *)
Theorem insert_returns_or_raises (m : insert_method) (data : pyval) (w : world C) :
  (forall e c1,
      cursor_open drv Cursor (state w) = (Raise e, c1) ->
      fst (call drv m data w) = Raise e) /\
  (forall c1 e c2 c3,
      cursor_open drv Cursor (state w) = (Return tt, c1) ->
      cursor_execute drv (statement_of m) data c1 = (Raise e, c2) ->
      cursor_exit drv c2 = (Return tt, c3) ->
      fst (call drv m data w) = Raise e) /\
  (forall c1 o c2 e c3,
      cursor_open drv Cursor (state w) = (Return tt, c1) ->
      cursor_execute drv (statement_of m) data c1 = (o, c2) ->
      cursor_exit drv c2 = (Raise e, c3) ->
      fst (call drv m data w) = Raise e) /\
  (forall c1 n c2 c3,
      cursor_open drv Cursor (state w) = (Return tt, c1) ->
      cursor_execute drv (statement_of m) data c1 = (Return n, c2) ->
      cursor_exit drv c2 = (Return tt, c3) ->
      fst (call drv m data w) =
        if succeeded m n (cursor_lastrowid drv c2)
        then Return (result_of m (cursor_lastrowid drv c2))
        else Raise (denied m)).
Proof.
  repeat split; intros; rewrite insert_block.
  - erewrite with_cursor_fails by eassumption. reflexivity.
  - erewrite with_cursor_runs; [|eassumption|apply insert_block_run; eassumption].
    simpl. rewrite H1. reflexivity.
  - erewrite with_cursor_runs; [|eassumption|apply insert_block_run; eassumption].
    simpl. rewrite H1. reflexivity.
  - erewrite with_cursor_runs; [|eassumption|apply insert_block_run; eassumption].
    simpl. rewrite H1. reflexivity.
Qed.

End Generic.

(** C1, witness: on the shop's connection insert_product, given a coat
    with every placeholder bound, returns the id the INSERT was given. *)
Lemma insert_returns_or_raises_witness :
  fst (insert_product MySQL.driver MySQL.coat (World MySQL.shop []))
    = Return (PyInt 7).
Proof.
  destruct (insert_returns_or_raises MySQL.driver InsertProduct
              MySQL.coat (World MySQL.shop []))
    as (_ & _ & _ & H).
  exact (H _ _ _ _ eq_refl eq_refl eq_refl).
Defined.

(** C1, counterexample: a successful insert_stock, every placeholder
    bound and one row affected, returns None, which is neither the new
    row's identifier nor StockCreateDenied. *)
Lemma insert_stock_returns_none :
  MySQL.first_unbound (MySQL.placeholders INSERT_stocks)
    [("product_option_code", PyStr "P0000000000000000007001");
     ("remain", PyInt 10); ("color_id", PyInt 1); ("size_id", PyInt 2);
     ("product_id", PyInt 7)] = None /\
  fst (insert_stock MySQL.driver MySQL.coat_stock (World MySQL.shop []))
    = Return PyNone /\
  ~ returns_id_or_denied InsertStock
      (fst (call MySQL.driver InsertStock MySQL.coat_stock (World MySQL.shop []))).
Proof.
  split; [reflexivity|]. split; [reflexivity|].
  intros [[id H]|H]; vm_compute in H; discriminate H.
Qed.

(** *** update_product_code on a MySQL session *)

Section Update.
Import MySQL.

Lemma filter_none {A} (f : A -> bool) (l : list A) :
  (forall x, In x l -> f x = false) -> List.filter f l = [].
Proof.
  induction l as [|a l IH]; intros H; simpl; [reflexivity|].
  rewrite (H a (or_introl eq_refl)). apply IH. intros x Hx. apply H. now right.
Qed.

Lemma filter_some {A} (f : A -> bool) (l : list A) (x : A) :
  In x l -> f x = true -> (0 < List.length (List.filter f l))%nat.
Proof.
  induction l as [|a l IH]; intros Hin Hf; simpl in *; [contradiction|].
  destruct Hin as [->|Hin].
  - rewrite Hf. simpl. lia.
  - destruct (f a); simpl; [lia|]. now apply IH.
Qed.

Lemma same_text_eq (a b : option string) : same_text a b = true <-> a = b.
Proof.
  destruct a as [x|], b as [y|]; simpl; split; intros H;
    try discriminate; try reflexivity.
  - apply String.eqb_eq in H. now subst.
  - injection H as ->. apply String.eqb_refl.
Qed.

(** No live target row: the UPDATE matches nothing, whatever the flag. *)
Lemma update_affected_none (found : bool) (pid : Z) (code : option string)
  (tbl : list product_row) :
  (forall r, In r tbl -> product_id r = pid -> product_is_deleted r <> 0) ->
  update_affected found pid code tbl = 0.
Proof.
  intros H. unfold update_affected. rewrite filter_none; [reflexivity|].
  intros r Hr. specialize (H r Hr).
  assert (Hm : update_matches pid r = false).
  { unfold update_matches.
    destruct (product_id r =? pid) eqn:E1; [|reflexivity].
    destruct (product_is_deleted r =? 0) eqn:E2; [|reflexivity].
    apply Z.eqb_eq in E1, E2. now elim (H E1). }
  destruct found; [exact Hm|]. unfold update_changes. now rewrite Hm.
Qed.

Lemma update_affected_some (found : bool) (pid : Z) (code : option string)
  (tbl : list product_row) (r : product_row) :
  In r tbl -> product_id r = pid -> product_is_deleted r = 0 ->
  found = true \/ product_code r <> code ->
  0 < update_affected found pid code tbl.
Proof.
  intros Hin Hid Hdel Hch. unfold update_affected.
  assert (Hm : update_matches pid r = true).
  { unfold update_matches. rewrite Hid, Hdel, Z.eqb_refl. reflexivity. }
  apply (inj_lt 0). apply (filter_some _ _ r Hin).
  destruct found; [exact Hm|].
  unfold update_changes. rewrite Hm. simpl.
  destruct Hch as [Hf|Hne]; [discriminate|].
  destruct (same_text (product_code r) code) eqn:E; [|reflexivity].
  apply same_text_eq in E. contradiction.
Qed.

(** The method on a healthy session: it raises exactly when the UPDATE
    affects no row. *)
Lemma update_product_code_run (s : session) (entries : list (string * pyval))
  (vcode vid : pyval) (code : option string) (pid : Z) (err : list exn) :
  healthy s ->
  lookup "product_code" entries = Some vcode -> as_text vcode = Some code ->
  lookup "product_id" entries = Some vid -> as_int vid = Some pid ->
  fst (update_product_code driver (PyDict entries) (World s err)) =
    if update_affected (found_rows s) pid code (products s) =? 0
    then Raise (ProductCodeUpdatedDenied "unable_to_update_product_code")
    else Return PyNone.
Proof.
  intros Hs Hc Hct Hi Hit.
  unfold update_product_code, with_cursor, execute, bind, try_finally, on_state.
  simpl. unfold session_cursor. rewrite (Hs OpCursor). simpl.
  unfold session_execute. simpl. rewrite (Hs OpExecute).
  unfold run_update, named_parameter. rewrite Hc, Hi, Hct, Hit. simpl.
  destruct (update_affected (found_rows s) pid code (products s) =? 0);
    simpl; unfold session_exit; simpl; rewrite (Hs OpCursorExit); reflexivity.
Qed.

End Update.

(** C6, as amended.  On a working connection, with an integer
    [product_id] and a text [product_code]: when no row of [products] has
    that id with [is_deleted = 0], the UPDATE affects zero rows and the
    method raises ProductCodeUpdatedDenied('unable_to_update_product_code');
    when such a row exists and the UPDATE changes it (it holds another
    code, or the connection counts matched rows), the method returns
    None. *)
Theorem update_product_code_denied_or_none (s : MySQL.session)
  (entries : list (string * pyval)) (vcode vid : pyval)
  (code : option string) (pid : Z) (err : list exn) :
  MySQL.healthy s ->
  lookup "product_code" entries = Some vcode -> MySQL.as_text vcode = Some code ->
  lookup "product_id" entries = Some vid -> MySQL.as_int vid = Some pid ->
  (~ MySQL.live_row s pid ->
     MySQL.update_affected (MySQL.found_rows s) pid code (MySQL.products s) = 0 /\
     fst (update_product_code MySQL.driver (PyDict entries) (World s err)) =
       Raise (ProductCodeUpdatedDenied "unable_to_update_product_code")) /\
  (MySQL.changed_row s pid code ->
     fst (update_product_code MySQL.driver (PyDict entries) (World s err)) =
       Return PyNone).
Proof.
  intros Hs Hc Hct Hi Hit.
  rewrite (update_product_code_run s entries vcode vid code pid err Hs Hc Hct Hi Hit).
  split.
  - intros Hno.
    assert (H0 : MySQL.update_affected (MySQL.found_rows s) pid code (MySQL.products s) = 0).
    { apply update_affected_none. intros r Hr Hid Hdel.
      destruct (Z.eq_dec (MySQL.product_is_deleted r) 0) as [E|E]; [|exact (E Hdel)].
      apply Hno. exists r. auto. }
    rewrite H0. split; reflexivity.
  - intros (r & Hin & Hid & Hdel & Hch).
    pose proof (update_affected_some _ pid code _ r Hin Hid Hdel Hch) as Hpos.
    destruct (MySQL.update_affected (MySQL.found_rows s) pid code (MySQL.products s) =? 0) eqn:E;
      [apply Z.eqb_eq in E; lia | reflexivity].
Qed.

(** C6, witness: on the shop, product 2 is soft-deleted and product 1
    takes a new code. *)
Lemma update_product_code_denied_or_none_witness :
  fst (update_product_code MySQL.driver
         (PyDict [("product_code", PyStr "P0000000000000000009"); ("product_id", PyInt 2)])
         (World MySQL.shop [])) =
    Raise (ProductCodeUpdatedDenied "unable_to_update_product_code") /\
  fst (update_product_code MySQL.driver
         (PyDict [("product_code", PyStr "P0000000000000000009"); ("product_id", PyInt 1)])
         (World MySQL.shop [])) = Return PyNone.
Proof.
  split.
  - apply (update_product_code_denied_or_none MySQL.shop
             [("product_code", PyStr "P0000000000000000009"); ("product_id", PyInt 2)]
             (PyStr "P0000000000000000009") (PyInt 2)
             (Some "P0000000000000000009") 2 []
             (fun _ => eq_refl) eq_refl eq_refl eq_refl eq_refl).
    intros (r & Hin & Hid & Hdel).
    simpl in Hin. destruct Hin as [<-|[<-|[]]]; discriminate.
  - apply (update_product_code_denied_or_none MySQL.shop
             [("product_code", PyStr "P0000000000000000009"); ("product_id", PyInt 1)]
             (PyStr "P0000000000000000009") (PyInt 1)
             (Some "P0000000000000000009") 1 []
             (fun _ => eq_refl) eq_refl eq_refl eq_refl eq_refl).
    exists {| MySQL.product_id := 1; MySQL.product_is_deleted := 0;
              MySQL.product_code := Some "P0000000000000000001" |}.
    repeat split; [left; reflexivity | right; discriminate].
Defined.

(** C6, counterexample: product 1 is there and not soft-deleted, yet
    giving it the code it already has affects zero rows on a connection
    with the default flags, and the method raises. *)
Lemma update_same_code_is_denied :
  MySQL.live_row MySQL.shop 1 /\
  fst (update_product_code MySQL.driver
         (PyDict [("product_code", PyStr "P0000000000000000001"); ("product_id", PyInt 1)])
         (World MySQL.shop [])) =
    Raise (ProductCodeUpdatedDenied "unable_to_update_product_code") /\
  fst (update_product_code MySQL.driver
         (PyDict [("product_code", PyStr "P0000000000000000001"); ("product_id", PyInt 1)])
         (World MySQL.shop [])) <> Return PyNone.
Proof.
  split; [|split].
  - exists {| MySQL.product_id := 1; MySQL.product_is_deleted := 0;
              MySQL.product_code := Some "P0000000000000000001" |}.
    repeat split. left. reflexivity.
  - reflexivity.
  - vm_compute. discriminate.
Qed.

End CreateProductDaoSpec.

(** ** sender_dao.py *)

Module SenderDaoSpec.
Import SenderDao MySQL.

Section Generic.
Context {C : Type} (drv : Driver C).

(** Both methods run their whole body under [except Exception]: whatever
    the driver and the data, nothing but ServerError comes out of them. *)
Lemma get_sender_info_dao_only_server_error (data : pyval) (w : world C) :
  (exists v, fst (get_sender_info_dao drv data w) = Return v) \/
  fst (get_sender_info_dao drv data w) = Raise (ServerError "server_error").
Proof.
  unfold get_sender_info_dao, try_except.
  match goal with |- context [match ?x with _ => _ end] =>
    destruct x as [[v|e] w1] end.
  - left. exists v. reflexivity.
  - right. reflexivity.
Qed.

Lemma permission_check_only_server_error (data : pyval) (w : world C) :
  (exists v, fst (get_user_permission_check_dao drv data w) = Return v) \/
  fst (get_user_permission_check_dao drv data w) = Raise (ServerError "server_error").
Proof.
  unfold get_user_permission_check_dao, try_except.
  match goal with |- context [match ?x with _ => _ end] =>
    destruct x as [[v|e] w1] end.
  - left. exists v. reflexivity.
  - right. reflexivity.
Qed.

End Generic.

(** The sender query, run: its first row is the first row of the account. *)
Lemma select_customer_first (uid : Z) (tbl : list customer_row) :
  match select_customer DictCursor uid tbl with
  | [] => List.find (fun r => customer_account_id r =? uid) tbl = None
  | d :: _ =>
      exists r, List.find (fun r => customer_account_id r =? uid) tbl = Some r /\
                d = PyDict [("name", customer_name r); ("phone", customer_phone r);
                            ("email", customer_email r)]
  end.
Proof.
  unfold select_customer.
  induction tbl as [|a tbl IH]; simpl; [reflexivity|].
  destruct (customer_account_id a =? uid); simpl; [|exact IH].
  exists a. split; reflexivity.
Qed.

Lemma select_permission_first (uid : Z) (tbl : list account_row) :
  match select_permission DictCursor uid tbl with
  | [] => List.find (fun r => account_id r =? uid) tbl = None
  | d :: _ =>
      exists r, List.find (fun r => account_id r =? uid) tbl = Some r /\
                d = PyDict [("permission_type_id", account_permission_type_id r)]
  end.
Proof.
  unfold select_permission.
  induction tbl as [|a tbl IH]; simpl; [reflexivity|].
  destruct (account_id a =? uid); simpl; [|exact IH].
  exists a. split; reflexivity.
Qed.

(** C5.  On a working connection, for a call that gives an integer
    [user_id]: when customer_information has no row of that account the
    method returns {"name": "", "phone": "", "email": ""} and raises
    nothing; when it has one, the method returns the name, phone and email
    of the (first) row. *)
Theorem get_sender_info_dao_row_or_blank (s : session)
  (entries : list (string * pyval)) (v : pyval) (uid : Z) (err : list exn) :
  healthy s ->
  lookup "user_id" entries = Some v -> as_int v = Some uid ->
  fst (get_sender_info_dao driver (PyDict entries) (World s err)) =
    match List.find (fun r => customer_account_id r =? uid) (customer_information s) with
    | None =>
        Return (PyDict [("name", PyStr ""); ("phone", PyStr ""); ("email", PyStr "")])
    | Some r =>
        Return (PyDict [("name", customer_name r); ("phone", customer_phone r);
                        ("email", customer_email r)])
    end.
Proof.
  intros Hs Hu Hv.
  unfold get_sender_info_dao, with_cursor, execute, fetchone, getitem,
    try_except, try_finally, bind, on_state, ret.
  simpl. unfold session_cursor. rewrite (Hs OpCursor). simpl.
  rewrite Hu. simpl.
  unfold session_execute. simpl. rewrite (Hs OpExecute).
  unfold run_select. rewrite Hv. simpl.
  unfold session_fetchone. simpl. rewrite (Hs OpFetch).
  pose proof (select_customer_first uid (customer_information s)) as Hfirst.
  destruct (select_customer DictCursor uid (customer_information s)) as [|d rest].
  - rewrite Hfirst. simpl.
    unfold session_exit. simpl. rewrite (Hs OpCursorExit). reflexivity.
  - destruct Hfirst as (r & -> & ->). simpl.
    unfold session_exit. simpl. rewrite (Hs OpCursorExit). reflexivity.
Qed.

(** C5, witness: account 120 has a row in the shop, account 5 has none. *)
Lemma get_sender_info_dao_row_or_blank_witness :
  fst (get_sender_info_dao driver (PyDict [("user_id", PyInt 120)]) (World shop [])) =
    Return (PyDict [("name", PyStr "suhee"); ("phone", PyStr "01012341234");
                    ("email", PyStr "gosuhee@gmail.com")]) /\
  fst (get_sender_info_dao driver (PyDict [("user_id", PyInt 5)]) (World shop [])) =
    Return (PyDict [("name", PyStr ""); ("phone", PyStr ""); ("email", PyStr "")]).
Proof.
  split.
  - exact (get_sender_info_dao_row_or_blank shop [("user_id", PyInt 120)]
             (PyInt 120) 120 [] (fun _ => eq_refl) eq_refl eq_refl).
  - exact (get_sender_info_dao_row_or_blank shop [("user_id", PyInt 5)]
             (PyInt 5) 5 [] (fun _ => eq_refl) eq_refl eq_refl).
Defined.

(** Whenever the accounts lookup finds no row, the AccountNotExist raised
    inside the [try] is caught by its own [except Exception], printed, and
    replaced by ServerError. *)
Lemma permission_check_missing_account (s : session)
  (entries : list (string * pyval)) (v : pyval) (uid : Z) (err : list exn) :
  healthy s ->
  lookup "user_id" entries = Some v -> as_int v = Some uid ->
  List.find (fun r => account_id r =? uid) (accounts s) = None ->
  fst (get_user_permission_check_dao driver (PyDict entries) (World s err)) =
    Raise (ServerError "server_error") /\
  stderr (snd (get_user_permission_check_dao driver (PyDict entries) (World s err))) =
    (err ++ [AccountNotExist "account_does_not_exist"])%list.
Proof.
  intros Hs Hu Hv Hnone.
  unfold get_user_permission_check_dao, with_cursor, execute, fetchone, getitem,
    try_except, try_finally, bind, on_state, ret, raise, print_exc.
  simpl. unfold session_cursor. rewrite (Hs OpCursor). simpl.
  rewrite Hu. simpl.
  unfold session_execute. simpl. rewrite (Hs OpExecute).
  unfold run_select. rewrite Hv. simpl.
  unfold session_fetchone. simpl. rewrite (Hs OpFetch).
  pose proof (select_permission_first uid (accounts s)) as Hfirst.
  destruct (select_permission DictCursor uid (accounts s)) as [|d rest].
  - simpl. unfold session_exit. simpl. rewrite (Hs OpCursorExit). simpl.
    split; reflexivity.
  - destruct Hfirst as (r & Hr & _). congruence.
Qed.

(** C4, at the failing input: the shop has no account 5; the caller gets
    ServerError('server_error'), and AccountNotExist only reaches stderr. *)
Theorem permission_check_raises_server_error :
  List.find (fun r => account_id r =? 5) (accounts shop) = None /\
  fst (get_user_permission_check_dao driver (PyDict [("user_id", PyInt 5)]) (World shop []))
    = Raise (ServerError "server_error") /\
  stderr (snd (get_user_permission_check_dao driver (PyDict [("user_id", PyInt 5)])
                 (World shop [])))
    = [AccountNotExist "account_does_not_exist"] /\
  fst (get_user_permission_check_dao driver (PyDict [("user_id", PyInt 5)]) (World shop []))
    <> Raise (AccountNotExist "account_does_not_exist").
Proof.
  repeat split. vm_compute. discriminate.
Qed.

End SenderDaoSpec.

(** ** seller_shop_service.py *)

Module SellerShopServiceSpec.
Import SellerShopService.

Section Service.
Context {S : Type} (seller_shop_dao : SellerShopDao S).

(** C8.  Each of the four service methods returns what its DAO call
    returns; a KeyError from the DAO is printed and replaced by
    KeyError('key_error'); any other exception comes out as it was, with
    the state the DAO left. *)
Theorem service_passes_or_rewraps (m : method) (data : pyval) (w : world S) :
  service_of seller_shop_dao m data w =
    match dao_of seller_shop_dao m data w with
    | (Return v, w') => (Return v, w')
    | (Raise e, w') =>
        if is_KeyError e
        then (Raise (KeyError (PyStr "key_error")),
              World (state w') (stderr w' ++ [e]))
        else (Raise e, w')
    end.
Proof.
  destruct m; unfold service_of, dao_of, get_seller_info_service,
    get_seller_product_search_service, get_seller_category_service,
    get_seller_product_list_service, try_except_if, bind, print_exc, raise;
    match goal with |- context [match ?x with _ => _ end] =>
      destruct x as [[v|e] w'] end;
    try reflexivity; destruct (is_KeyError e); reflexivity.
Qed.

End Service.
End SellerShopServiceSpec.

(** ** The views *)

Module ViewSpec.
Import Handlers.

Section WithStore.
Context {Store : Type}.

(** *** Building [data] neither reads the frame nor changes the world *)

Lemma arg_run (args : list pyval) (i : nat) (w : world (server Store)) :
  arg args i w =
    (match nth_error args i with
     | Some v => Return v
     | None => Raise (IndexError "tuple index out of range")
     end, w).
Proof. unfold arg. destruct (nth_error args i); reflexivity. Qed.

Lemma g_attr_run (name : string) (w : world (server Store)) :
  g_attr name w =
    (match lookup name (g (state w)) with
     | Some v => Return v
     | None => Raise (AttributeError name)
     end, w).
Proof.
  unfold g_attr, on_state. destruct w as [s err]. simpl.
  destruct (lookup name (g s)); reflexivity.
Qed.

Lemma positional_run (keys : list string) (args : list pyval) :
  forall i, exists o, forall w : world (server Store),
    StoreOrderView.positional keys args i w = (o, w).
Proof.
  induction keys as [|k keys IH]; intros i; simpl.
  - exists (Return []). reflexivity.
  - destruct (IH (S i)) as [o Ho].
    destruct (nth_error args i) as [v|] eqn:E.
    + destruct o as [entries|e].
      * exists (Return ((k, v) :: entries)). intros w.
        unfold bind. rewrite arg_run, E, Ho. reflexivity.
      * exists (Raise e). intros w.
        unfold bind. rewrite arg_run, E, Ho. reflexivity.
    + exists (Raise (IndexError "tuple index out of range")). intros w.
      unfold bind. rewrite arg_run, E. reflexivity.
Qed.

Lemma data_of_run (h : handler) (args : list pyval) (gs : list (string * pyval)) :
  exists o, forall w : world (server Store), g (state w) = gs -> data_of h args w = (o, w).
Proof.
  destruct h; simpl;
    unfold DestinationView.DestinationView_post_data,
      StoreOrderView.StoreOrderAddView_post_data.
  - destruct (nth_error args 0) eqn:E0; eexists; intros w _;
      unfold bind, ret; rewrite arg_run, E0; reflexivity.
  - eexists. intros w _. reflexivity.
  - destruct (nth_error args 0) eqn:E0;
      [destruct (nth_error args 1) eqn:E1;
       [destruct (nth_error args 2) eqn:E2;
        [destruct (nth_error args 3) eqn:E3;
         [destruct (nth_error args 4) eqn:E4;
          [destruct (nth_error args 5) eqn:E5|]|]|]|]|];
      eexists; intros w _; unfold bind, ret;
      rewrite ?arg_run, ?E0, ?E1, ?E2, ?E3, ?E4, ?E5; reflexivity.
  - destruct (nth_error args 0) eqn:E0; eexists; intros w _;
      unfold bind, ret; rewrite arg_run, E0; reflexivity.
  - destruct (nth_error args 0) eqn:E0;
      [destruct (lookup "account_id" gs) eqn:E1;
       [destruct (lookup "permission_type_id" gs) eqn:E2|]|];
      eexists; intros w Hg; unfold bind, ret;
      rewrite ?arg_run, ?g_attr_run, ?Hg, ?E0, ?E1, ?E2; reflexivity.
  - destruct (positional_run StoreOrderView.post_keys args 0) as [o Ho].
    destruct (lookup "account_id" gs) eqn:E1;
      [destruct (lookup "permission_type_id" gs) eqn:E2; [destruct o|]|];
      eexists; intros w Hg; unfold bind, ret;
      rewrite ?g_attr_run, ?Hg, ?E1, ?E2, ?Ho; reflexivity.
Qed.

Lemma data_of_fresh (h : handler) (args : list pyval) (w : world (server Store)) (data : pyval) :
  data_of h args w = (Return data, w) ->
  data_of h args (fresh w) = (Return data, fresh w).
Proof.
  intros H. destruct (data_of_run h args (g (state w))) as [o Ho].
  rewrite (Ho w eq_refl) in H. injection H as ->.
  apply Ho. reflexivity.
Qed.

(** A run is the handler's [try] statement on the data it built. *)
Lemma run_protected (app : App Store) (h : handler) (args : list pyval)
  (w : world (server Store)) (data : pyval) :
  data_of h args w = (Return data, w) ->
  run app h args w = protected app h data (fresh w).
Proof.
  intros H. apply data_of_fresh in H. revert H.
  unfold run. unfold bind at 1. unfold fresh.
  destruct (new_frame w) as [[u|e] w0] eqn:E; [|discriminate E].
  simpl. clear E.
  destruct h; simpl; intros H.
  - unfold bind in *. rewrite arg_run in *.
    destruct (nth_error args 0); [|discriminate H].
    injection H as <-. reflexivity.
  - injection H as <-. reflexivity.
  - unfold DestinationView.DestinationView_post. unfold bind at 1. rewrite H. reflexivity.
  - unfold DestinationView.DestinationView_delete.
    unfold bind in *. rewrite arg_run in *.
    destruct (nth_error args 0); [|discriminate H].
    injection H as <-. reflexivity.
  - unfold StoreOrderView.StoreOrderView_get.
    unfold bind in *. rewrite arg_run in *.
    destruct (nth_error args 0); [|discriminate H].
    rewrite g_attr_run in *.
    destruct (lookup "account_id" (g (state w0))); [|discriminate H].
    rewrite g_attr_run in *.
    destruct (lookup "permission_type_id" (g (state w0))); [|discriminate H].
    injection H as <-. reflexivity.
  - unfold StoreOrderView.StoreOrderAddView_post. unfold bind at 1. rewrite H. reflexivity.
Qed.

(** *** The connection calls, run *)

Lemma load_connection_unbound (w : world (server Store)) :
  connection (state w) = None ->
  load_connection w = (Raise (UnboundLocalError "connection"), w).
Proof.
  intros H. unfold load_connection, on_state. rewrite H. destruct w; reflexivity.
Qed.

Lemma load_connection_bound (w : world (server Store)) (c : connection_obj) :
  connection (state w) = Some c ->
  load_connection w = (Return c, w).
Proof.
  intros H. unfold load_connection, on_state. rewrite H. destruct w; reflexivity.
Qed.

(** When [get_connection] raises, the [try] block stops there, with
    [connection] as it was. *)
Lemma body_connect_fails (app : App Store) (h : handler) (data : pyval)
  (w : world (server Store)) (e : exn) :
  fault (state w) OpConnect = Some e ->
  body app h data w =
    (Raise e, World (logged (EvGetConnection (database_of app h)) (state w)) (stderr w)).
Proof.
  intros H.
  destruct h; simpl;
    unfold DestinationView.DestinationDetailView_get_body,
      DestinationView.DestinationView_get_body,
      DestinationView.DestinationView_post_body,
      DestinationView.DestinationView_delete_body,
      StoreOrderView.StoreOrderView_get_body,
      StoreOrderView.StoreOrderAddView_post_body;
    unfold bind at 1; unfold get_connection, on_state; rewrite H; reflexivity.
Qed.

(** With [connection] unbound, the [except] clause of a write handler and
    every [finally] clause fail on reading it; the [finally] clause turns
    that into DatabaseCloseFail. *)
Lemma finally_unbound (h : handler) (w : world (server Store)) :
  connection (state w) = None ->
  finally_clause h w = (Raise (DatabaseCloseFail (close_message h)), w).
Proof.
  intros H. unfold finally_clause, try_except, bind.
  rewrite (load_connection_unbound w H). reflexivity.
Qed.

Lemma except_unbound (h : handler) (e : exn) (w : world (server Store)) :
  connection (state w) = None ->
  except_clause h e w =
    (Raise (if is_write h then UnboundLocalError "connection" else e), w).
Proof.
  intros H. unfold except_clause.
  destruct (is_write h); [|reflexivity].
  unfold bind. rewrite (load_connection_unbound w H). reflexivity.
Qed.

Lemma protected_unbound (app : App Store) (h : handler) (data : pyval)
  (w w1 : world (server Store)) (e : exn) :
  body app h data w = (Raise e, w1) ->
  connection (state w1) = None ->
  protected app h data w = (Raise (DatabaseCloseFail (close_message h)), w1).
Proof.
  intros Hbody Hunbound. unfold protected, try_finally, try_except.
  rewrite Hbody, (except_unbound h e w1 Hunbound), (finally_unbound h w1 Hunbound).
  reflexivity.
Qed.

(** C9.  In every handler, when [get_connection] raises, [connection] is
    never bound: the [except] clause of a POST or DELETE handler fails on
    [connection.rollback()] and every [finally] clause fails on
    [if connection:], both with UnboundLocalError, a NameError; the
    [finally] clause turns it into DatabaseCloseFail, which is what the
    handler raises in place of the exception of [get_connection]. *)
Theorem connect_failure_reported_as_close_failure (app : App Store) (h : handler)
  (args : list pyval) (w : world (server Store)) (data : pyval) (e : exn) :
  data_of h args w = (Return data, w) ->
  fault (state w) OpConnect = Some e ->
  exists w1,
    body app h data (fresh w) = (Raise e, w1) /\
    connection (state w1) = None /\
    (is_write h = true ->
       except_clause h e w1 = (Raise (UnboundLocalError "connection"), w1)) /\
    load_connection w1 = (Raise (UnboundLocalError "connection"), w1) /\
    is_NameError (UnboundLocalError "connection") = true /\
    finally_clause h w1 = (Raise (DatabaseCloseFail (close_message h)), w1) /\
    run app h args w = (Raise (DatabaseCloseFail (close_message h)), w1) /\
    appended w w1 [EvGetConnection (database_of app h)].
Proof.
  intros Hdata Hfault.
  assert (Hfresh : fault (state (fresh w)) OpConnect = Some e) by exact Hfault.
  pose proof (body_connect_fails app h data (fresh w) e Hfresh) as Hbody.
  eexists. split; [exact Hbody|].
  assert (Hunbound : connection (state (World
            (logged (EvGetConnection (database_of app h)) (state (fresh w)))
            (stderr (fresh w)))) = None) by reflexivity.
  split; [exact Hunbound|].
  split; [intros Hw; rewrite (except_unbound h e _ Hunbound), Hw; reflexivity|].
  split; [exact (load_connection_unbound _ Hunbound)|].
  split; [reflexivity|].
  split; [exact (finally_unbound h _ Hunbound)|].
  split; [|reflexivity].
  rewrite (run_protected app h args w data Hdata).
  exact (protected_unbound app h data _ _ e Hbody Hunbound).
Qed.

(** *** Cleaning up with the connection bound *)

Lemma rollback_run (c : connection_obj) (w : world (server Store)) :
  fst (rollback c w) =
    match fault (state w) OpRollback with
    | Some e => Raise e
    | None => Return tt
    end /\
  log (state (snd (rollback c w))) = (log (state w) ++ [EvRollback])%list /\
  committed (state (snd (rollback c w))) = committed (state w) /\
  connection (state (snd (rollback c w))) = connection (state w) /\
  fault (state (snd (rollback c w))) = fault (state w).
Proof.
  unfold rollback, on_state. destruct w as [s err]. simpl.
  destruct (fault s OpRollback); simpl; [repeat split|].
  destruct (transaction s); simpl; repeat split.
Qed.

Lemma close_run (c : connection_obj) (w : world (server Store)) :
  fst (close c w) =
    match fault (state w) OpClose with
    | Some e => Raise e
    | None => Return tt
    end /\
  log (state (snd (close c w))) = (log (state w) ++ [EvClose])%list /\
  committed (state (snd (close c w))) = committed (state w) /\
  connection (state (snd (close c w))) = connection (state w) /\
  fault (state (snd (close c w))) = fault (state w).
Proof.
  unfold close, on_state. destruct w as [s err]. simpl.
  destruct (fault s OpClose); simpl; repeat split.
Qed.

(** The [finally] clause with [connection] bound: it closes, and a
    failure to close becomes DatabaseCloseFail. *)
Lemma finally_bound (h : handler) (w : world (server Store)) (c : connection_obj) :
  connection (state w) = Some c ->
  finally_clause h w =
    (match fault (state w) OpClose with
     | Some _ => Raise (DatabaseCloseFail (close_message h))
     | None => Return tt
     end, snd (close c w)).
Proof.
  intros H. unfold finally_clause, try_except, bind.
  rewrite (load_connection_bound w c H). simpl.
  destruct (close_run c w) as (Ho & _).
  destruct (close c w) as [o w']. simpl in *. subst o.
  destruct (fault (state w) OpClose); reflexivity.
Qed.

(** The [except] clause with [connection] bound: a write handler rolls
    back and re-raises, a GET handler only re-raises. *)
Lemma except_bound (h : handler) (e : exn) (w : world (server Store))
  (c : connection_obj) :
  connection (state w) = Some c ->
  except_clause h e w =
    if is_write h
    then (match fault (state w) OpRollback with
          | Some e' => Raise e'
          | None => Raise e
          end, snd (rollback c w))
    else (Raise e, w).
Proof.
  intros H. unfold except_clause.
  destruct (is_write h); [|reflexivity].
  unfold bind. rewrite (load_connection_bound w c H).
  destruct (rollback_run c w) as (Ho & _).
  destruct (rollback c w) as [o w']. simpl in *. subst o.
  destruct (fault (state w) OpRollback); reflexivity.
Qed.

Lemma protected_bound_raise (app : App Store) (h : handler) (data : pyval)
  (w w1 : world (server Store)) (e : exn) (c : connection_obj) :
  body app h data w = (Raise e, w1) ->
  connection (state w1) = Some c ->
  protected app h data w =
    (match fault (state w1) OpClose with
     | Some _ => Raise (DatabaseCloseFail (close_message h))
     | None =>
         if is_write h
         then match fault (state w1) OpRollback with
              | Some e' => Raise e'
              | None => Raise e
              end
         else Raise e
     end, cleaned h c w1).
Proof.
  intros Hbody Hbound. unfold protected, try_finally, try_except, cleaned.
  rewrite Hbody, (except_bound h e w1 c Hbound).
  destruct (is_write h).
  - destruct (rollback_run c w1) as (_ & _ & _ & Hc & Hf).
    rewrite (finally_bound h (snd (rollback c w1)) c) by (rewrite Hc; exact Hbound).
    rewrite Hf.
    destruct (fault (state w1) OpClose), (fault (state w1) OpRollback); reflexivity.
  - rewrite (finally_bound h w1 c Hbound).
    destruct (fault (state w1) OpClose); reflexivity.
Qed.

Lemma protected_bound_return (app : App Store) (h : handler) (data : pyval)
  (w w1 : world (server Store)) (v : pyval) (c : connection_obj) :
  body app h data w = (Return v, w1) ->
  connection (state w1) = Some c ->
  protected app h data w =
    (match fault (state w1) OpClose with
     | Some _ => Raise (DatabaseCloseFail (close_message h))
     | None => Return v
     end, snd (close c w1)).
Proof.
  intros Hbody Hbound. unfold protected, try_finally, try_except.
  rewrite Hbody, (finally_bound h w1 c Hbound).
  destruct (fault (state w1) OpClose); reflexivity.
Qed.

Lemma cleaned_log (h : handler) (c : connection_obj) (w : world (server Store)) :
  appended w (cleaned h c w) (if is_write h then [EvRollback; EvClose] else [EvClose]).
Proof.
  unfold appended, cleaned. destruct (is_write h).
  - destruct (close_run c (snd (rollback c w))) as (_ & -> & _).
    destruct (rollback_run c w) as (_ & -> & _).
    rewrite <- app_assoc. reflexivity.
  - destruct (close_run c w) as (_ & -> & _). reflexivity.
Qed.

Lemma cleaned_committed (h : handler) (c : connection_obj) (w : world (server Store)) :
  committed (state (cleaned h c w)) = committed (state w).
Proof.
  unfold cleaned. destruct (is_write h).
  - destruct (close_run c (snd (rollback c w))) as (_ & _ & -> & _).
    destruct (rollback_run c w) as (_ & _ & -> & _). reflexivity.
  - destruct (close_run c w) as (_ & _ & -> & _). reflexivity.
Qed.

(** C3, as amended.  For every handler and every exception its [try]
    block raises once [connection] is bound: a POST or DELETE handler
    calls [connection.rollback()] and then [connection.close()]; a GET
    handler calls [connection.close()] only, without any rollback; nothing
    is committed by the cleanup; and the handler ends by raising, for the
    application's error handlers to answer: the exception itself when the
    cleanup calls succeed, DatabaseCloseFail when [close] raises. *)
Theorem failure_cleanup (app : App Store) (h : handler) (args : list pyval)
  (w w1 : world (server Store)) (data : pyval) (e : exn) (c : connection_obj) :
  data_of h args w = (Return data, w) ->
  body app h data (fresh w) = (Raise e, w1) ->
  connection (state w1) = Some c ->
  appended w1 (snd (run app h args w))
    (if is_write h then [EvRollback; EvClose] else [EvClose]) /\
  committed (state (snd (run app h args w))) = committed (state w1) /\
  (exists e', fst (run app h args w) = Raise e') /\
  (fault (state w1) OpRollback = None -> fault (state w1) OpClose = None ->
     fst (run app h args w) = Raise e) /\
  (forall e', fault (state w1) OpClose = Some e' ->
     fst (run app h args w) = Raise (DatabaseCloseFail (close_message h))).
Proof.
  intros Hdata Hbody Hbound.
  rewrite (run_protected app h args w data Hdata).
  rewrite (protected_bound_raise app h data (fresh w) w1 e c Hbody Hbound).
  simpl. split; [apply cleaned_log|]. split; [apply cleaned_committed|].
  split; [|split].
  - destruct (fault (state w1) OpClose); [eexists; reflexivity|].
    destruct (is_write h); [|eexists; reflexivity].
    destruct (fault (state w1) OpRollback); eexists; reflexivity.
  - intros -> ->. destruct (is_write h); reflexivity.
  - intros e' ->. reflexivity.
Qed.

(** *** The write handlers *)

(** The [try] block of a write handler once the connection is obtained:
    the service runs on a fresh transaction; [commit] is called exactly
    when the service returns. *)
Lemma write_body (app : App Store) (h : handler) (data : pyval)
  (w : world (server Store)) :
  is_write h = true ->
  fault (state w) OpConnect = None ->
  exists resp : pyval -> pyval,
    body app h data w =
      match service_of app h data (committed (state w)) with
      | (Raise e, t1) => (Raise e, World (served app h data t1 (state w)) (stderr w))
      | (Return v, t1) =>
          match fault (state w) OpCommit with
          | Some e =>
              (Raise e, World (logged EvCommit (served app h data t1 (state w))) (stderr w))
          | None =>
              (Return (resp v),
               World (set_committed t1 (logged EvCommit (served app h data t1 (state w))))
                     (stderr w))
          end
      end.
Proof.
  intros Hw Hc.
  destruct h; try discriminate Hw; simpl;
    unfold DestinationView.DestinationView_post_body,
      DestinationView.DestinationView_delete_body,
      StoreOrderView.StoreOrderAddView_post_body;
    eexists (fun v => _);
    unfold bind, get_connection, assign_connection, load_connection,
      call_service, commit, on_state, ret;
    destruct w as [s err]; simpl in *; rewrite Hc; simpl;
    match goal with
    | |- context [match ?m data (committed s) with _ => _ end] =>
        destruct (m data (committed s)) as [[v|e] t1]
    end; simpl; try reflexivity;
    destruct (fault s OpCommit); reflexivity.
Qed.

Lemma in_singleton_commit (db : pyval) :
  ~ In EvCommit [EvGetConnection db].
Proof. intros [H|[]]; discriminate H. Qed.

(** C2.  For a write handler (DestinationView.post, StoreOrderAddView.post,
    and DestinationView.delete alike): [connection.commit()] is called if
    and only if the service call returns; when the service raises,
    [connection.rollback()] is called right after it, then
    [connection.close()], and only then does the handler raise (the
    service's exception, when the cleanup calls succeed); and the rows
    committed at the end are either all those the service wrote, when the
    service returned and the commit went through, or exactly those
    committed before. *)
Theorem write_handler_atomic (app : App Store) (h : handler) (args : list pyval)
  (w : world (server Store)) (data : pyval) :
  is_write h = true ->
  data_of h args w = (Return data, w) ->
  exists tr,
    appended w (snd (run app h args w)) tr /\
    (In EvCommit tr <->
       fault (state w) OpConnect = None /\
       exists v, fst (service_of app h data (committed (state w))) = Return v) /\
    (forall e,
       fault (state w) OpConnect = None ->
       fst (service_of app h data (committed (state w))) = Raise e ->
       tr = [EvGetConnection (database_of app h); EvService (service_name h) data;
             EvRollback; EvClose] /\
       (exists e', fst (run app h args w) = Raise e') /\
       (fault (state w) OpRollback = None -> fault (state w) OpClose = None ->
          fst (run app h args w) = Raise e)) /\
    committed (state (snd (run app h args w))) =
      match fault (state w) OpConnect,
            fst (service_of app h data (committed (state w))),
            fault (state w) OpCommit with
      | None, Return _, None => snd (service_of app h data (committed (state w)))
      | _, _, _ => committed (state w)
      end.
Proof.
  intros Hw Hdata.
  rewrite (run_protected app h args w data Hdata).
  destruct (fault (state w) OpConnect) as [e0|] eqn:Hconn.
  - (* get_connection raises *)
    assert (Hfresh : fault (state (fresh w)) OpConnect = Some e0) by exact Hconn.
    rewrite (protected_unbound app h data (fresh w) _ e0
               (body_connect_fails app h data (fresh w) e0 Hfresh) eq_refl).
    exists [EvGetConnection (database_of app h)].
    split; [reflexivity|].
    split; [split; [intros H; elim (in_singleton_commit _ H) | intros [H _]; discriminate H]|].
    split; [intros e H; discriminate H | reflexivity].
  - assert (Hfresh : fault (state (fresh w)) OpConnect = None) by exact Hconn.
    destruct (write_body app h data (fresh w) Hw Hfresh) as [resp Hbody].
    change (committed (state (fresh w))) with (committed (state w)) in Hbody.
    change (fault (state (fresh w)) OpCommit) with (fault (state w) OpCommit) in Hbody.
    destruct (service_of app h data (committed (state w))) as [[v|e] t1]; simpl.
    + destruct (fault (state w) OpCommit) as [ec|] eqn:Hcommit.
      * (* the service returns, commit raises *)
        rewrite (protected_bound_raise app h data (fresh w) _ ec _ Hbody eq_refl). cbn [fst snd].
        exists [EvGetConnection (database_of app h); EvService (service_name h) data;
                EvCommit; EvRollback; EvClose].
        split.
        { unfold appended. simpl.
          match goal with |- context [cleaned ?h ?c ?x] =>
            pose proof (cleaned_log h c x) as Hl end.
          unfold appended in Hl. rewrite Hl, Hw. simpl.
          rewrite <- !app_assoc. reflexivity. }
        split; [split; [intros _; split; [reflexivity|eexists; reflexivity]
                       | intros _; simpl; auto]|].
        split; [intros e _ H; discriminate H|].
        rewrite cleaned_committed. reflexivity.
      * (* the service returns, commit goes through *)
        rewrite (protected_bound_return app h data (fresh w) _ _ _ Hbody eq_refl). cbn [fst snd].
        exists [EvGetConnection (database_of app h); EvService (service_name h) data;
                EvCommit; EvClose].
        split.
        { unfold appended. simpl.
          match goal with |- context [close ?c ?x] =>
            destruct (close_run c x) as (_ & Hl & _) end.
          rewrite Hl. simpl. rewrite <- !app_assoc. reflexivity. }
        split; [split; [intros _; split; [reflexivity|eexists; reflexivity]
                       | intros _; simpl; auto]|].
        split; [intros e _ H; discriminate H|].
        simpl.
        match goal with |- context [close ?c ?x] =>
          destruct (close_run c x) as (_ & _ & Hcm & _) end.
        rewrite Hcm. reflexivity.
    + (* the service raises *)
      rewrite (protected_bound_raise app h data (fresh w) _ e _ Hbody eq_refl). cbn [fst snd].
      exists [EvGetConnection (database_of app h); EvService (service_name h) data;
              EvRollback; EvClose].
      split.
      { unfold appended. simpl.
        match goal with |- context [cleaned ?h ?c ?x] =>
          pose proof (cleaned_log h c x) as Hl end.
        unfold appended in Hl. rewrite Hl, Hw. simpl.
        rewrite <- !app_assoc. reflexivity. }
      split.
      { split.
        - intros H. simpl in H.
          destruct H as [H|[H|[H|[H|[]]]]]; discriminate H.
        - intros [_ [v H]]. discriminate H. }
      split; [|rewrite cleaned_committed; reflexivity].
      intros e' _ He. injection He as <-.
      split; [reflexivity|]. rewrite Hw. simpl.
      change (fault (served app h data t1 (state (fresh w))) OpClose)
        with (fault (state w) OpClose).
      change (fault (served app h data t1 (state (fresh w))) OpRollback)
        with (fault (state w) OpRollback).
      split.
      * destruct (fault (state w) OpClose); [eexists; reflexivity|].
        destruct (fault (state w) OpRollback); eexists; reflexivity.
      * intros -> ->. reflexivity.
Qed.

(** *** DestinationDetailView.get: the first element, or IndexError *)

(** C10.  DestinationDetailView.get returns
    {'message': 'success', 'result': destination_detail[0]}: for a
    non-empty list or tuple from the service the [try] block returns that
    dict with the first element, and so does the handler when the
    connection closes.  When the service returns an empty sequence, the
    indexing raises IndexError inside the [try]; the [except] clause
    re-raises it as it is, so the handler never returns a response and
    never raises a destination-does-not-exist error: it raises the
    IndexError (DatabaseCloseFail if closing the connection fails too). *)
Theorem detail_first_element_or_index_error (self : DestinationView.Self Store)
  (destination_id : pyval) (w : world (server Store)) (seq : pyval) (t1 : Store) :
  fault (state w) OpConnect = None ->
  DestinationView.get_destination_detail_service (DestinationView.service self)
    (PyDict [("destination_id", destination_id)]) (committed (state w))
    = (Return seq, t1) ->
  (forall first rest,
      seq = PyList (first :: rest) \/ seq = PyTuple (first :: rest) ->
      getitem0 seq w = (Return first, w) /\
      fst (DestinationView.DestinationDetailView_get_body self
             (PyDict [("destination_id", destination_id)]) w)
        = Return (PyDict [("message", PyStr "success"); ("result", first)]) /\
      (fault (state w) OpClose = None ->
         fst (DestinationView.DestinationDetailView_get self destination_id w)
           = Return (PyDict [("message", PyStr "success"); ("result", first)])) /\
      (forall e, fault (state w) OpClose = Some e ->
         fst (DestinationView.DestinationDetailView_get self destination_id w)
           = Raise (DatabaseCloseFail "database_close_failed"))) /\
  (seq = PyList [] \/ seq = PyTuple [] ->
   exists msg,
     getitem0 seq w = (Raise (IndexError msg), w) /\
     fst (DestinationView.DestinationDetailView_get_body self
            (PyDict [("destination_id", destination_id)]) w) = Raise (IndexError msg) /\
     (fault (state w) OpClose = None ->
        fst (DestinationView.DestinationDetailView_get self destination_id w)
          = Raise (IndexError msg)) /\
     (forall e, fault (state w) OpClose = Some e ->
        fst (DestinationView.DestinationDetailView_get self destination_id w)
          = Raise (DatabaseCloseFail "database_close_failed")) /\
     (forall v, fst (DestinationView.DestinationDetailView_get self destination_id w)
          <> Return v)).
Proof.
  intros Hconn Hsvc.
  unfold DestinationView.DestinationDetailView_get,
    DestinationView.DestinationDetailView_get_body,
    try_finally, try_except, bind, get_connection, assign_connection,
    load_connection, call_service, close, on_state, ret, raise.
  destruct w as [s err]. simpl in *. rewrite Hconn. simpl. rewrite Hsvc.
  split.
  - intros first rest [-> | ->]; simpl;
      (split; [reflexivity|]); (split; [reflexivity|]);
      destruct (fault s OpClose) as [ec|]; simpl;
      split; intros; try reflexivity; discriminate.
  - intros [-> | ->]; simpl;
      [exists "list index out of range" | exists "tuple index out of range"];
      (split; [reflexivity|]); (split; [reflexivity|]);
      destruct (fault s OpClose) as [ec|]; simpl;
      repeat split; try reflexivity; try discriminate; intros; discriminate.
Qed.

End WithStore.

(** *** Runs of the sample application *)

(** C9, witness: with the database unreachable, the client of
    DestinationDetailView.get is told that closing the database failed. *)
Lemma connect_failure_reported_as_close_failure_witness :
  fst (run (sample_app true) DestinationDetail_get [PyInt 1]
         (World (unreachable [1; 2]) []))
    = Raise (DatabaseCloseFail "database_close_failed").
Proof.
  destruct (connect_failure_reported_as_close_failure (sample_app true)
              DestinationDetail_get [PyInt 1] (World (unreachable [1; 2]) [])
              (PyDict [("destination_id", PyInt 1)])
              (MySQLError 2003 "Can't connect to MySQL server")
              eq_refl eq_refl)
    as (w1 & _ & _ & _ & _ & _ & _ & Hrun & _).
  rewrite Hrun. reflexivity.
Defined.

(** C3, witness: deleting a destination that is not there; the service
    raises after it has written, the handler rolls back, closes, and
    raises the same error. *)
Lemma failure_cleanup_witness :
  fst (run (sample_app true) Destination_delete [PyStr "9"] (World (idle [1; 2]) []))
    = Raise (CustomError "DestinationNotExist" "destination_does_not_exist") /\
  committed (state (snd (run (sample_app true) Destination_delete [PyStr "9"]
                           (World (idle [1; 2]) [])))) = [1; 2].
Proof.
  destruct (failure_cleanup (sample_app true) Destination_delete [PyStr "9"]
              (World (idle [1; 2]) []) _
              (PyDict [("destination_id", PyStr "9"); ("account_id", PyInt 120)])
              (CustomError "DestinationNotExist" "destination_does_not_exist")
              (Connection (PyStr "brandi"))
              eq_refl eq_refl eq_refl)
    as (_ & Hcommitted & _ & Hraise & _).
  split; [exact (Hraise eq_refl eq_refl) | exact Hcommitted].
Defined.

(** C3, counterexample: DestinationDetailView.get on a destination that is
    not there.  The connection is obtained, the service raises, and the
    handler closes the connection and re-raises without any rollback. *)
Lemma get_handler_does_not_roll_back :
  fst (run (sample_app true) DestinationDetail_get [PyInt 9] (World (idle [1; 2]) []))
    = Raise (CustomError "DestinationNotExist" "destination_does_not_exist") /\
  log (state (snd (run (sample_app true) DestinationDetail_get [PyInt 9]
                     (World (idle [1; 2]) []))))
    = [EvGetConnection (PyStr "brandi");
       EvService "get_destination_detail_service" (PyDict [("destination_id", PyInt 9)]);
       EvClose] /\
  ~ rolls_back_and_closes (sample_app true) DestinationDetail_get [PyInt 9]
      (World (idle [1; 2]) []).
Proof.
  split; [reflexivity|]. split; [reflexivity|].
  intros [(tr & Happ & Hin) _].
  unfold appended in Happ. vm_compute in Happ. subst tr.
  simpl in Hin. destruct Hin as [H|[H|[H|[]]]]; discriminate H.
Qed.

(** C2, witness: DestinationView.post on the sample application commits
    both rows the service wrote. *)
Lemma write_handler_atomic_witness :
  committed (state (snd (run (sample_app true) Destination_post sample_destination
                           (World (idle [1; 2]) [])))) = [1; 2; 100; 101].
Proof.
  destruct (write_handler_atomic (sample_app true) Destination_post
              sample_destination (World (idle [1; 2]) [])
              (PyDict [("user_id", PyStr "120"); ("recipient", PyStr "kim");
                       ("phone", PyStr "01012341234"); ("address1", PyStr "seoul");
                       ("address2", PyStr "101"); ("post_number", PyStr "12345")])
              eq_refl eq_refl)
    as (tr & _ & _ & _ & Hcommitted).
  exact Hcommitted.
Defined.

(** C10, witness: the lenient sample service answers a one-element list
    for destination 2 and an empty tuple for destination 9, which is not
    there. *)
Lemma detail_first_element_or_index_error_witness :
  fst (DestinationView.DestinationDetailView_get (destination (sample_app false))
         (PyInt 2) (World (idle [1; 2]) []))
    = Return (PyDict [("message", PyStr "success");
                      ("result", PyDict [("id", PyInt 2)])]) /\
  fst (DestinationView.DestinationDetailView_get (destination (sample_app false))
         (PyInt 9) (World (idle [1; 2]) []))
    = Raise (IndexError "tuple index out of range").
Proof.
  split.
  - destruct (proj1 (detail_first_element_or_index_error
                       (destination (sample_app false)) (PyInt 2)
                       (World (idle [1; 2]) []) (PyList [PyDict [("id", PyInt 2)]])
                       [1; 2] eq_refl eq_refl)
                (PyDict [("id", PyInt 2)]) [] (or_introl eq_refl))
      as (_ & _ & Hreturn & _).
    exact (Hreturn eq_refl).
  - destruct (proj2 (detail_first_element_or_index_error
                       (destination (sample_app false)) (PyInt 9)
                       (World (idle [1; 2]) []) (PyTuple []) [1; 2]
                       eq_refl eq_refl)
                (or_intror eq_refl))
      as (msg & Hitem & _ & Hraise & _).
    injection Hitem as <-.
    exact (Hraise eq_refl).
Defined.

End ViewSpec.

(** ** Validation *)

Module ValidatorSpec.
Import Validator.

Section Rules.
Variable accepts : rule -> string -> bool.

Lemma forallb_rejects {A} (f : A -> bool) (l : list A) (x : A) :
  In x l -> f x = false -> forallb f l = false.
Proof.
  induction l as [|a l IH]; intros Hin Hf; simpl in *; [contradiction|].
  destruct Hin as [->|Hin].
  - rewrite Hf. reflexivity.
  - rewrite (IH Hin Hf). apply andb_false_r.
Qed.

Lemma check_param_rejects (p : Param) (r : rule) (s : string) (req : request) :
  In r (rules p) ->
  lookup (name p) (values req (source p)) = Some (PyStr s) ->
  accepts r s = false ->
  check_param accepts p req = None.
Proof.
  intros Hr Hl Ha. unfold check_param. rewrite Hl.
  rewrite (forallb_rejects _ (rules p) r Hr Ha), andb_false_r. reflexivity.
Qed.

(** A malformed request leaves the validator with at least one error. *)
Lemma collect_malformed (params : list Param) (req : request) :
  malformed accepts params req ->
  exists n errors vals, collect accepts params req = (n :: errors, vals).
Proof.
  intros (p & r & s & Hin & Hr & Hl & Ha).
  induction params as [|a params IH]; simpl in *; [contradiction|].
  destruct Hin as [->|Hin].
  - rewrite (check_param_rejects p r s req Hr Hl Ha).
    destruct (collect accepts params req) as [errors vals].
    exists (name p), errors, vals. reflexivity.
  - destruct (IH Hin) as (n & errors & vals & ->).
    destruct (check_param accepts a req) as [v|].
    + exists n, errors, (v :: vals). reflexivity.
    + exists (name a), (n :: errors), vals. reflexivity.
Qed.

Lemma validate_params_rejects {S A} (params : list Param)
  (func : list pyval -> M S A) (req : request) (w : world S) :
  malformed accepts params req ->
  exists errors, validate_params accepts params func req w
                 = (Raise (InvalidRequest errors), w).
Proof.
  intros H. destruct (collect_malformed params req H) as (n & errors & vals & Hc).
  unfold validate_params. rewrite Hc. exists (n :: errors). reflexivity.
Qed.

(** C7.  A request with a parameter that one of its declared rules
    rejects never reaches the handler: the decorated DestinationView.post
    raises the validation error in the world it was called in, and the
    decorated StoreOrderAddView.post raises it (or what the sign-in
    raised) in the world the sign-in left; the log of connection calls is
    untouched, so no connection is opened and no service is called. *)
Theorem malformed_request_rejected {Store : Type} :
  (forall (self : DestinationView.Self Store) req (w : world (server Store)),
      malformed accepts DestinationView_post_params req ->
      exists errors,
        DestinationView_post_route accepts self req w
          = (Raise (InvalidRequest errors), w)) /\
  (forall (signin : M (server Store) unit) (self : StoreOrderView.Self Store) req
          (w : world (server Store)),
      malformed accepts StoreOrderAddView_post_params req ->
      exists errors,
        StoreOrderAddView_post_route accepts signin self req w
          = (match fst (signin w) with
             | Return _ => Raise (InvalidRequest errors)
             | Raise e => Raise e
             end, snd (signin w))).
Proof.
  split.
  - intros self req w H. unfold DestinationView_post_route.
    apply validate_params_rejects. exact H.
  - intros signin self req w H.
    unfold StoreOrderAddView_post_route, signin_decorator, bind.
    destruct (signin w) as [[u|e] w1]; simpl.
    + apply validate_params_rejects. exact H.
    + exists []. reflexivity.
Qed.

End Rules.

(** C7, witness: the destination with letters in its phone number and
    the order with no at sign in its e-mail address are both rejected with
    the server untouched. *)
Lemma malformed_request_rejected_witness :
  (exists errors,
     DestinationView_post_route sample_rules
       (Handlers.destination (Handlers.sample_app true)) bad_destination
       (World (Handlers.idle [1; 2]) [])
     = (Raise (InvalidRequest errors), World (Handlers.idle [1; 2]) [])) /\
  (exists errors,
     StoreOrderAddView_post_route sample_rules (ret tt)
       (Handlers.store_order (Handlers.sample_app true)) bad_order
       (World (Handlers.idle [1; 2]) [])
     = (Raise (InvalidRequest errors), World (Handlers.idle [1; 2]) [])).
Proof.
  split.
  - apply (proj1 (malformed_request_rejected sample_rules (Store := list Z))
             (Handlers.destination (Handlers.sample_app true)) bad_destination
             (World (Handlers.idle [1; 2]) [])).
    exists (mkParam "phone" JSON Tstr [PhoneRule]), PhoneRule, "010-abcd-1234".
    repeat split; simpl; auto.
  - apply (proj2 (malformed_request_rejected sample_rules (Store := list Z))
             (ret tt) (Handlers.store_order (Handlers.sample_app true)) bad_order
             (World (Handlers.idle [1; 2]) [])).
    exists (mkParam "senderEmail" JSON Tstr [EmailRule]), EmailRule, "gosuhee".
    repeat split; simpl; auto 20.
Defined.

End ValidatorSpec.

(** * Further properties *)

(** ** create_product_dao.py: cursors and statements *)

Module CreateProductDaoConduct.
Import CreateProductDao Conduct.

Section Generic.
Context {C : Type} (drv : Driver C).

Lemma update_block (data : pyval) (w : world C) o c2 :
  cursor_execute drv UPDATE_products_product_code data (state w) = (o, c2) ->
  bind (execute drv UPDATE_products_product_code data) (fun result =>
    if negb (truthy (PyInt result))
    then raise (ProductCodeUpdatedDenied "unable_to_update_product_code")
    else ret PyNone) w =
  (match o with
   | Return n =>
       if n =? 0
       then Raise (ProductCodeUpdatedDenied "unable_to_update_product_code")
       else Return PyNone
   | Raise e => Raise e
   end, World c2 (stderr w)).
Proof.
  intros H. unfold bind. rewrite execute_run, H. simpl.
  destruct o as [n|e]; [|reflexivity].
  destruct (n =? 0); reflexivity.
Qed.

(** X1.  update_product_code on any driver: an exception raised by
    [connection.cursor()], by [execute] or by the cursor's exit comes out
    unchanged (the method catches nothing); otherwise the method raises
    ProductCodeUpdatedDenied exactly when [execute] answered zero affected
    rows, and returns None for any other count. *)
Theorem update_product_code_outcomes (data : pyval) (w : world C) :
  (forall e c1,
      cursor_open drv Cursor (state w) = (Raise e, c1) ->
      fst (update_product_code drv data w) = Raise e) /\
  (forall c1 e c2 c3,
      cursor_open drv Cursor (state w) = (Return tt, c1) ->
      cursor_execute drv UPDATE_products_product_code data c1 = (Raise e, c2) ->
      cursor_exit drv c2 = (Return tt, c3) ->
      fst (update_product_code drv data w) = Raise e) /\
  (forall c1 o c2 e c3,
      cursor_open drv Cursor (state w) = (Return tt, c1) ->
      cursor_execute drv UPDATE_products_product_code data c1 = (o, c2) ->
      cursor_exit drv c2 = (Raise e, c3) ->
      fst (update_product_code drv data w) = Raise e) /\
  (forall c1 n c2 c3,
      cursor_open drv Cursor (state w) = (Return tt, c1) ->
      cursor_execute drv UPDATE_products_product_code data c1 = (Return n, c2) ->
      cursor_exit drv c2 = (Return tt, c3) ->
      fst (update_product_code drv data w) =
        if n =? 0
        then Raise (ProductCodeUpdatedDenied "unable_to_update_product_code")
        else Return PyNone).
Proof.
  unfold update_product_code. repeat split; intros.
  - erewrite with_cursor_fails by eassumption. reflexivity.
  - erewrite with_cursor_runs; [|eassumption|apply update_block; eassumption].
    simpl. rewrite H1. reflexivity.
  - erewrite with_cursor_runs; [|eassumption|apply update_block; eassumption].
    simpl. rewrite H1. reflexivity.
  - erewrite with_cursor_runs; [|eassumption|apply update_block; eassumption].
    simpl. rewrite H1. reflexivity.
Qed.

Lemma with_cursor_world {A} (cls : cursor_class) (sql : statement) (args : pyval)
  (body : M C A) (w : world C) :
  (forall w1, snd (body w1)
              = World (snd (cursor_execute drv sql args (state w1))) (stderr w1)) ->
  snd (with_cursor drv cls body w) = World (driven drv cls sql args (state w)) (stderr w).
Proof.
  intros Hbody. unfold driven.
  destruct (cursor_open drv cls (state w)) as [[[]|e] c1] eqn:Hopen.
  - destruct (body (World c1 (stderr w))) as [o w2] eqn:Hb.
    rewrite (with_cursor_runs drv cls body w c1 o w2 Hopen Hb).
    pose proof (Hbody (World c1 (stderr w))) as Hw2. rewrite Hb in Hw2.
    simpl in Hw2. subst w2. simpl.
    destruct (cursor_exit drv (snd (cursor_execute drv sql args c1))) as [[u|e] c3];
      reflexivity.
  - rewrite (with_cursor_fails drv cls body w e c1 Hopen). reflexivity.
Qed.

(** X2.  Each of the five methods opens one cursor, executes its one
    statement once and leaves the cursor, in that order and on every path:
    also when it raises its denied error, the statement stays executed on
    the connection and the cursor is left; when [connection.cursor()]
    raises, nothing else is called.  Nothing is printed. *)
Theorem one_cursor_one_statement (data : pyval) (w : world C) :
  (forall m,
      snd (call drv m data w)
        = World (driven drv Cursor (statement_of m) data (state w)) (stderr w)) /\
  snd (update_product_code drv data w)
    = World (driven drv Cursor UPDATE_products_product_code data (state w)) (stderr w).
Proof.
  split.
  - intros m. rewrite CreateProductDaoSpec.insert_block.
    apply with_cursor_world. intros w1.
    destruct (cursor_execute drv (statement_of m) data (state w1)) as [o c2] eqn:E.
    rewrite (CreateProductDaoSpec.insert_block_run drv m data w1 o c2 E). reflexivity.
  - unfold update_product_code. apply with_cursor_world. intros w1.
    destruct (cursor_execute drv UPDATE_products_product_code data (state w1))
      as [o c2] eqn:E.
    rewrite (update_block data w1 o c2 E). reflexivity.
Qed.

End Generic.

Section OnMySQL.
Import MySQL.

Lemma update_row_spec (pid : Z) (code : option string) (r : product_row) :
  product_id (update_row pid code r) = product_id r /\
  product_is_deleted (update_row pid code r) = product_is_deleted r /\
  (product_id r = pid -> product_is_deleted r = 0 ->
     product_code (update_row pid code r) = code) /\
  (product_id r <> pid \/ product_is_deleted r <> 0 -> update_row pid code r = r).
Proof.
  unfold update_row, update_matches.
  destruct (product_id r =? pid) eqn:E1; destruct (product_is_deleted r =? 0) eqn:E2;
    simpl; repeat split; try reflexivity; intros;
    try (apply Z.eqb_eq in E1); try (apply Z.eqb_eq in E2);
    try (apply Z.eqb_neq in E1); try (apply Z.eqb_neq in E2);
    try contradiction; try tauto.
Qed.

Lemma update_table (s : session) (entries : list (string * pyval))
  (vcode vid : pyval) (code : option string) (pid : Z) (err : list exn) :
  healthy s ->
  lookup "product_code" entries = Some vcode -> as_text vcode = Some code ->
  lookup "product_id" entries = Some vid -> as_int vid = Some pid ->
  let s' := state (snd (update_product_code driver (PyDict entries) (World s err))) in
  products s' = List.map (update_row pid code) (products s) /\
  customer_information s' = customer_information s /\
  accounts s' = accounts s.
Proof.
  intros Hs Hc Hct Hi Hit.
  unfold update_product_code, with_cursor, execute, bind, try_finally, on_state.
  simpl. unfold session_cursor. rewrite (Hs OpCursor). simpl.
  unfold session_execute. simpl. rewrite (Hs OpExecute).
  unfold run_update, named_parameter. rewrite Hc, Hi, Hct, Hit. simpl.
  destruct (update_affected (found_rows s) pid code (products s) =? 0);
    simpl; unfold session_exit; simpl; rewrite (Hs OpCursorExit);
    repeat split.
Qed.

(** X13.  On a working connection, update_product_code rewrites the
    product_code of the rows with the given id and [is_deleted = 0], and
    nothing else: every row keeps its place, its id and its is_deleted
    flag, soft-deleted rows and rows of other products are left exactly as
    they were, and the other tables are untouched; this holds whether the
    method returns or raises its denied error. *)
Theorem update_touches_only_the_live_target (s : session)
  (entries : list (string * pyval)) (vcode vid : pyval)
  (code : option string) (pid : Z) (err : list exn) :
  healthy s ->
  lookup "product_code" entries = Some vcode -> as_text vcode = Some code ->
  lookup "product_id" entries = Some vid -> as_int vid = Some pid ->
  let s' := state (snd (update_product_code driver (PyDict entries) (World s err))) in
  customer_information s' = customer_information s /\
  accounts s' = accounts s /\
  List.length (products s') = List.length (products s) /\
  forall i r,
    nth_error (products s) i = Some r ->
    exists r',
      nth_error (products s') i = Some r' /\
      product_id r' = product_id r /\
      product_is_deleted r' = product_is_deleted r /\
      (product_id r = pid -> product_is_deleted r = 0 -> product_code r' = code) /\
      (product_id r <> pid \/ product_is_deleted r <> 0 -> r' = r).
Proof.
  intros Hs Hc Hct Hi Hit s'.
  destruct (update_table s entries vcode vid code pid err Hs Hc Hct Hi Hit)
    as (Hp & Hci & Ha).
  fold s' in Hp, Hci, Ha.
  split; [exact Hci|]. split; [exact Ha|].
  rewrite Hp. split; [apply length_map|].
  intros i r Hr. exists (update_row pid code r).
  split; [rewrite nth_error_map, Hr; reflexivity|].
  apply update_row_spec.
Qed.

End OnMySQL.

(** X13, witness: a new code for product 2 of the shop, which is
    soft-deleted. *)
Lemma update_touches_only_the_live_target_witness :
  MySQL.customer_information
    (state (snd (update_product_code MySQL.driver
                   (PyDict [("product_code", PyStr "P0000000000000000009");
                            ("product_id", PyInt 2)])
                   (World MySQL.shop []))))
  = MySQL.customer_information MySQL.shop /\
  List.length
    (MySQL.products
       (state (snd (update_product_code MySQL.driver
                      (PyDict [("product_code", PyStr "P0000000000000000009");
                               ("product_id", PyInt 2)])
                      (World MySQL.shop []))))) = 2%nat.
Proof.
  destruct (update_touches_only_the_live_target MySQL.shop
              [("product_code", PyStr "P0000000000000000009"); ("product_id", PyInt 2)]
              (PyStr "P0000000000000000009") (PyInt 2)
              (Some "P0000000000000000009") 2 []
              (fun _ => eq_refl) eq_refl eq_refl eq_refl eq_refl)
    as (Hci & _ & Hlen & _).
  split; [exact Hci | exact Hlen].
Defined.

(** X1, witness: on the shop, giving product 1 a new code changes one
    row. *)
Lemma update_product_code_outcomes_witness :
  fst (update_product_code MySQL.driver
         (PyDict [("product_code", PyStr "P0000000000000000009"); ("product_id", PyInt 1)])
         (World MySQL.shop [])) = Return PyNone.
Proof.
  destruct (update_product_code_outcomes MySQL.driver
              (PyDict [("product_code", PyStr "P0000000000000000009");
                       ("product_id", PyInt 1)]) (World MySQL.shop []))
    as (_ & _ & _ & H).
  exact (H _ 1 _ _ eq_refl eq_refl eq_refl).
Defined.

End CreateProductDaoConduct.

(** ** sender_dao.py: what comes out, what is printed, what is touched *)

Module SenderDaoConduct.
Import SenderDao Conduct.

(** Case split on a [match] whose scrutinee holds no further [match]. *)
Ltac split_innermost :=
  match goal with
  | |- context [match ?x with _ => _ end] =>
      lazymatch x with
      | context [match _ with _ => _ end] => fail
      | _ => destruct x eqn:?
      end
  end.

Section Generic.
Context {C : Type} (drv : Driver C).

Lemma with_cursor_stderr {A} (cls : cursor_class) (body : M C A) (w : world C) :
  (forall w1, stderr (snd (body w1)) = stderr w1) ->
  stderr (snd (with_cursor drv cls body w)) = stderr w.
Proof.
  intros Hbody. unfold with_cursor, bind, try_finally, on_state.
  destruct (cursor_open drv cls (state w)) as [[u|e] c1]; [|reflexivity].
  specialize (Hbody (World c1 (stderr w))).
  destruct (body (World c1 (stderr w))) as [o w2]. simpl in Hbody.
  destruct (cursor_exit drv (state w2)) as [[u'|e] c3]; exact Hbody.
Qed.

Lemma with_cursor_returned {A} (cls : cursor_class) (body : M C A) (w : world C) v :
  fst (with_cursor drv cls body w) = Return v ->
  exists w1, fst (body w1) = Return v.
Proof.
  unfold with_cursor, bind, try_finally, on_state.
  destruct (cursor_open drv cls (state w)) as [[u|e] c1]; [|discriminate].
  exists (World c1 (stderr w)).
  destruct (body (World c1 (stderr w))) as [o w2].
  destruct (cursor_exit drv (state w2)) as [[u'|e] c3]; [exact H|discriminate H].
Qed.

(** The two blocks under [with]: they print nothing, and what they
    return is truthy. *)
Lemma sender_info_block (data : pyval) (w1 : world C) :
  let block :=
    bind (getitem data "user_id") (fun user_id =>
    bind (execute drv SELECT_customer_information user_id) (fun _ =>
    bind (fetchone drv) (fun result =>
    if negb (truthy result)
    then ret (PyDict [("name", PyStr ""); ("phone", PyStr ""); ("email", PyStr "")])
    else ret result))) in
  stderr (snd (block w1)) = stderr w1 /\
  forall v, fst (block w1) = Return v -> truthy v = true.
Proof.
  unfold getitem, execute, fetchone, bind, on_state, ret, raise.
  repeat (split_innermost; simpl);
    (split; [reflexivity | intros v' Hv; try discriminate Hv]);
    injection Hv as <-; try reflexivity.
  match goal with H : negb (truthy _) = false |- _ =>
    apply negb_false_iff in H; exact H end.
Qed.

Lemma permission_block (data : pyval) (w1 : world C) :
  let block :=
    bind (getitem data "user_id") (fun user_id =>
    bind (execute drv SELECT_accounts_permission user_id) (fun _ =>
    bind (fetchone drv) (fun result =>
    if negb (truthy result)
    then raise (AccountNotExist "account_does_not_exist")
    else ret result))) in
  stderr (snd (block w1)) = stderr w1 /\
  forall v, fst (block w1) = Return v -> truthy v = true.
Proof.
  unfold getitem, execute, fetchone, bind, on_state, ret, raise.
  repeat (split_innermost; simpl);
    (split; [reflexivity | intros v' Hv; try discriminate Hv]);
    injection Hv as <-.
  match goal with H : negb (truthy _) = false |- _ =>
    apply negb_false_iff in H; exact H end.
Qed.

Lemma guarded_block (block : M C pyval) (w : world C) :
  (forall w1, stderr (snd (block w1)) = stderr w1 /\
              forall v, fst (block w1) = Return v -> truthy v = true) ->
  let r := try_except (with_cursor drv DictCursor block)
             (fun e => bind (print_exc e) (fun _ => raise (ServerError "server_error"))) w in
  (exists v, fst r = Return v /\ truthy v = true /\ stderr (snd r) = stderr w) \/
  (fst r = Raise (ServerError "server_error") /\
   exists e, stderr (snd r) = (stderr w ++ [e])%list).
Proof.
  intros Hblock.
  pose proof (with_cursor_stderr DictCursor block w (fun w1 => proj1 (Hblock w1))) as Herr.
  pose proof (with_cursor_returned DictCursor block w) as Hret.
  unfold try_except, bind, print_exc, raise. simpl.
  destruct (with_cursor drv DictCursor block w) as [[v|e] w2]; simpl in *.
  - left. exists v. destruct (Hret v eq_refl) as [w1 Hw1].
    repeat split; [exact (proj2 (Hblock w1) v Hw1) | exact Herr].
  - right. split; [reflexivity|]. exists e. rewrite Herr. reflexivity.
Qed.

(** X3.  Whatever the driver and the data, each method of SenderDao either
    returns a truthy value and prints nothing, or raises
    ServerError('server_error') after printing exactly one traceback; no
    other exception ever comes out. *)
Theorem sender_dao_returns_or_server_error (data : pyval) (w : world C) :
  forall r,
    r = get_sender_info_dao drv data w \/ r = get_user_permission_check_dao drv data w ->
    (exists v, fst r = Return v /\ truthy v = true /\ stderr (snd r) = stderr w) \/
    (fst r = Raise (ServerError "server_error") /\
     exists e, stderr (snd r) = (stderr w ++ [e])%list).
Proof.
  intros r [-> | ->].
  - apply guarded_block. intros w1. apply sender_info_block.
  - apply guarded_block. intros w1. apply permission_block.
Qed.

(** X4.  A [data] dict without 'user_id': both methods open the cursor,
    fail on [data['user_id']] before any statement is executed, leave the
    cursor, and raise ServerError; the KeyError is what gets printed when
    the cursor opened and was left without error. *)
Theorem sender_dao_missing_user_id (entries : list (string * pyval)) (w : world C) :
  lookup "user_id" entries = None ->
  forall r,
    r = get_sender_info_dao drv (PyDict entries) w \/
    r = get_user_permission_check_dao drv (PyDict entries) w ->
    fst r = Raise (ServerError "server_error") /\
    state (snd r) = opened_and_left drv DictCursor (state w) /\
    (forall c1 c3,
        cursor_open drv DictCursor (state w) = (Return tt, c1) ->
        cursor_exit drv c1 = (Return tt, c3) ->
        stderr (snd r) = (stderr w ++ [KeyError (PyStr "user_id")])%list).
Proof.
  intros Hkey r [-> | ->];
    unfold get_sender_info_dao, get_user_permission_check_dao, with_cursor,
      getitem, try_except, try_finally, bind, on_state, print_exc, raise,
      opened_and_left;
    rewrite Hkey;
    destruct (cursor_open drv DictCursor (state w)) as [[[]|e] c1]; simpl;
    try destruct (cursor_exit drv c1) as [[[]|e'] c3] eqn:Hexit; simpl;
    repeat split; try reflexivity;
    intros c1' c3' H1 H2;
    first [ discriminate H1
          | reflexivity
          | injection H1 as <-; rewrite Hexit in H2; discriminate H2 ].
Qed.

End Generic.

(** X4, witness: an empty [data] on the shop's connection. *)
Lemma sender_dao_missing_user_id_witness :
  fst (get_sender_info_dao MySQL.driver (PyDict []) (World MySQL.shop []))
    = Raise (ServerError "server_error") /\
  stderr (snd (get_sender_info_dao MySQL.driver (PyDict []) (World MySQL.shop [])))
    = [KeyError (PyStr "user_id")].
Proof.
  destruct (sender_dao_missing_user_id MySQL.driver [] (World MySQL.shop []) eq_refl
              _ (or_introl eq_refl)) as (Hraise & _ & Hprinted).
  split; [exact Hraise | exact (Hprinted _ _ eq_refl eq_refl)].
Defined.

Section OnMySQL.
Import MySQL.

(** X5.  On a working connection, for an integer [user_id] whose account
    exists, get_user_permission_check_dao returns the dict
    {'permission_type_id': ...} of the (first) row and prints nothing. *)
Theorem permission_check_found (s : session) (entries : list (string * pyval))
  (v : pyval) (uid : Z) (err : list exn) (r : account_row) :
  healthy s ->
  lookup "user_id" entries = Some v -> as_int v = Some uid ->
  List.find (fun r => account_id r =? uid) (accounts s) = Some r ->
  fst (get_user_permission_check_dao driver (PyDict entries) (World s err))
    = Return (PyDict [("permission_type_id", account_permission_type_id r)]) /\
  stderr (snd (get_user_permission_check_dao driver (PyDict entries) (World s err)))
    = err.
Proof.
  intros Hs Hu Hv Hfound.
  unfold get_user_permission_check_dao, with_cursor, execute, fetchone, getitem,
    try_except, try_finally, bind, on_state, ret, raise, print_exc.
  simpl. unfold session_cursor. rewrite (Hs OpCursor). simpl.
  rewrite Hu. simpl.
  unfold session_execute. simpl. rewrite (Hs OpExecute).
  unfold run_select. rewrite Hv. simpl.
  unfold session_fetchone. simpl. rewrite (Hs OpFetch).
  pose proof (SenderDaoSpec.select_permission_first uid (accounts s)) as Hfirst.
  destruct (select_permission DictCursor uid (accounts s)) as [|d rest].
  - congruence.
  - destruct Hfirst as (r' & Hr' & ->).
    rewrite Hfound in Hr'. injection Hr' as <-. simpl.
    unfold session_exit. simpl. rewrite (Hs OpCursorExit). split; reflexivity.
Qed.

(** X6.  On any session, working or failing at any point, and for any
    [data], neither method of SenderDao changes a table: both only read. *)
Theorem sender_dao_reads_only (s : session) (data : pyval) (err : list exn) :
  forall r,
    r = get_sender_info_dao driver data (World s err) \/
    r = get_user_permission_check_dao driver data (World s err) ->
    products (state (snd r)) = products s /\
    customer_information (state (snd r)) = customer_information s /\
    accounts (state (snd r)) = accounts s.
Proof.
  intros r [-> | ->];
    unfold get_sender_info_dao, get_user_permission_check_dao, with_cursor,
      execute, fetchone, getitem, try_except, try_finally, bind, on_state,
      print_exc, ret, raise;
    simpl; unfold session_cursor;
    destruct (fault s OpCursor); simpl; try (repeat split; reflexivity);
    (destruct data; simpl;
     try (unfold session_exit; simpl; destruct (fault s OpCursorExit);
          simpl; repeat split; reflexivity));
    (destruct (lookup "user_id" entries) as [v|]; simpl;
     [| unfold session_exit; simpl; destruct (fault s OpCursorExit);
        simpl; repeat split; reflexivity]);
    unfold session_execute; simpl;
    (destruct (fault s OpExecute); simpl;
     [ unfold session_exit; simpl; destruct (fault s OpCursorExit);
       simpl; repeat split; reflexivity |]);
    unfold run_select, unsupported;
    (destruct (as_int v) as [uid|]; simpl;
     [| unfold session_exit; simpl; destruct (fault s OpCursorExit);
        simpl; repeat split; reflexivity]);
    unfold session_fetchone; simpl;
    (destruct (fault s OpFetch); simpl;
     [ unfold session_exit; simpl; destruct (fault s OpCursorExit);
       simpl; repeat split; reflexivity |]);
    match goal with
    | |- context [match ?l with [] => _ | _ :: _ => _ end] => destruct l as [|d rest]
    end; simpl;
    try (match goal with |- context [truthy ?d] => destruct (truthy d) end; simpl);
    unfold session_exit; simpl; destruct (fault s OpCursorExit);
    simpl; repeat split; reflexivity.
Qed.

End OnMySQL.

(** X3, witness: the sender of account 120. *)
Lemma sender_dao_returns_or_server_error_witness :
  (exists v,
      fst (get_sender_info_dao MySQL.driver (PyDict [("user_id", PyInt 120)])
             (World MySQL.shop [])) = Return v /\
      truthy v = true /\
      stderr (snd (get_sender_info_dao MySQL.driver (PyDict [("user_id", PyInt 120)])
                     (World MySQL.shop []))) = []) \/
  (fst (get_sender_info_dao MySQL.driver (PyDict [("user_id", PyInt 120)])
          (World MySQL.shop [])) = Raise (ServerError "server_error") /\
   exists e,
     stderr (snd (get_sender_info_dao MySQL.driver (PyDict [("user_id", PyInt 120)])
                    (World MySQL.shop []))) = ([] ++ [e])%list).
Proof.
  exact (sender_dao_returns_or_server_error MySQL.driver
           (PyDict [("user_id", PyInt 120)]) (World MySQL.shop []) _
           (or_introl eq_refl)).
Defined.

(** X6, witness: the permission check leaves the shop's tables alone. *)
Lemma sender_dao_reads_only_witness :
  MySQL.accounts
    (state (snd (get_user_permission_check_dao MySQL.driver
                   (PyDict [("user_id", PyInt 5)]) (World MySQL.shop []))))
  = MySQL.accounts MySQL.shop.
Proof.
  destruct (sender_dao_reads_only MySQL.shop (PyDict [("user_id", PyInt 5)]) [] _
              (or_intror eq_refl)) as (_ & _ & H).
  exact H.
Defined.

(** X5, witness: account 121 of the shop. *)
Lemma permission_check_found_witness :
  fst (get_user_permission_check_dao MySQL.driver (PyDict [("user_id", PyInt 121)])
         (World MySQL.shop []))
    = Return (PyDict [("permission_type_id", PyInt 2)]).
Proof.
  exact (proj1 (permission_check_found MySQL.shop [("user_id", PyInt 121)]
                  (PyInt 121) 121 []
                  {| MySQL.account_id := 121; MySQL.account_permission_type_id := PyInt 2 |}
                  (fun _ => eq_refl) eq_refl eq_refl eq_refl)).
Defined.

End SenderDaoConduct.

(** ** seller_shop_service.py: what a caller can tell *)

Module SellerShopServiceConduct.
Import SellerShopService.

Section Service.
Context {S : Type} (seller_shop_dao : SellerShopDao S).

Lemma service_run (m : method) (data : pyval) (w : world S) :
  service_of seller_shop_dao m data w =
    try_except_if is_KeyError (dao_of seller_shop_dao m data)
      (fun e => bind (print_exc e) (fun _ => raise (KeyError (PyStr "key_error")))) w.
Proof. destruct m; reflexivity. Qed.

(** X16.  What the caller of a SellerShopService method can tell: the
    method returns a value exactly when its DAO call returned it; a
    KeyError it raises is always KeyError('key_error'), whatever key the
    DAO's KeyError named; any other exception it raises is one the DAO
    raised; and it leaves the state exactly as the DAO call left it. *)
Theorem service_outcome_reflects_dao (m : method) (data : pyval) (w : world S) :
  (forall v, fst (service_of seller_shop_dao m data w) = Return v <->
             fst (dao_of seller_shop_dao m data w) = Return v) /\
  (forall k, fst (service_of seller_shop_dao m data w) = Raise (KeyError k) ->
             k = PyStr "key_error" /\
             exists k', fst (dao_of seller_shop_dao m data w) = Raise (KeyError k')) /\
  (forall e, is_KeyError e = false ->
             (fst (service_of seller_shop_dao m data w) = Raise e <->
              fst (dao_of seller_shop_dao m data w) = Raise e)) /\
  state (snd (service_of seller_shop_dao m data w))
    = state (snd (dao_of seller_shop_dao m data w)).
Proof.
  rewrite service_run. unfold try_except_if, bind, print_exc, raise.
  destruct (dao_of seller_shop_dao m data w) as [[v|e] w1]; simpl.
  - repeat split; intros; try assumption; discriminate.
  - destruct e; simpl;
      repeat split; intros;
      try assumption; try discriminate; try reflexivity;
      try (match goal with H : Raise _ = Raise _ |- _ => injection H as <- end;
           reflexivity);
      try (eexists; reflexivity);
      try (match goal with H : Raise _ = Raise _ |- _ => injection H as <- end;
           discriminate).
Qed.

End Service.

(** X16, witness: asked without a 'seller_id', the sample DAO raises
    KeyError('seller_id') and the service KeyError('key_error'). *)
Lemma service_outcome_reflects_dao_witness :
  PyStr "key_error" = PyStr "key_error" /\
  exists k',
    fst (dao_of Conduct.sample_seller_dao SellerInfo (PyDict [])
           (World [("brandi", PyStr "shop")] [])) = Raise (KeyError k').
Proof.
  exact (proj1 (proj2 (service_outcome_reflects_dao Conduct.sample_seller_dao
                         SellerInfo (PyDict []) (World [("brandi", PyStr "shop")] [])))
           (PyStr "key_error") eq_refl).
Defined.

End SellerShopServiceConduct.

(** ** The views: every run of every handler *)

Module ViewConduct.
Import Handlers Conduct ViewSpec.

Section WithStore.
Context {Store : Type}.

Lemma getitem0_run {S} (v : pyval) (w : world S) :
  getitem0 v w = (first_item v, w).
Proof.
  unfold first_item.
  destruct v as [| | |s|l|l|d|b]; try reflexivity.
  - destruct s; reflexivity.
  - destruct l; reflexivity.
  - destruct l; reflexivity.
Qed.

(** A run builds [data] in a fresh frame and enters the [try] statement
    with it; when building [data] raises, the [try] is never entered. *)
Lemma run_bind (app : App Store) (h : handler) (args : list pyval)
  (w : world (server Store)) :
  run app h args w = bind (data_of h args) (protected app h) (fresh w).
Proof.
  unfold run. unfold bind at 1. unfold fresh.
  destruct (new_frame w) as [[u|e] w0] eqn:E; [|discriminate E].
  simpl. clear E.
  destruct h; simpl.
  - unfold bind. rewrite arg_run. destruct (nth_error args 0); reflexivity.
  - reflexivity.
  - reflexivity.
  - unfold DestinationView.DestinationView_delete, bind. rewrite arg_run.
    destruct (nth_error args 0); reflexivity.
  - unfold StoreOrderView.StoreOrderView_get, bind. rewrite arg_run.
    destruct (nth_error args 0); [|reflexivity].
    rewrite g_attr_run.
    destruct (lookup "account_id" (g (state w0))); [|reflexivity].
    rewrite g_attr_run.
    destruct (lookup "permission_type_id" (g (state w0))); reflexivity.
  - reflexivity.
Qed.

Lemma data_of_fresh_raise (h : handler) (args : list pyval)
  (w : world (server Store)) (e : exn) :
  data_of h args w = (Raise e, w) ->
  data_of h args (fresh w) = (Raise e, fresh w).
Proof.
  intros H. destruct (data_of_run (Store := Store) h args (g (state w))) as [o Ho].
  rewrite (Ho w eq_refl) in H. injection H as ->.
  apply Ho. reflexivity.
Qed.

(** The [try] block of a GET handler once the connection is obtained. *)
Lemma read_body (app : App Store) (h : handler) (data : pyval)
  (w : world (server Store)) :
  is_write h = false ->
  fault (state w) OpConnect = None ->
  body app h data w =
    match service_of app h data (committed (state w)) with
    | (Raise e, t1) => (Raise e, World (served app h data t1 (state w)) (stderr w))
    | (Return v, t1) =>
        (read_response h v, World (served app h data t1 (state w)) (stderr w))
    end.
Proof.
  intros Hw Hc.
  destruct h; try discriminate Hw; simpl;
    unfold DestinationView.DestinationDetailView_get_body,
      DestinationView.DestinationView_get_body,
      StoreOrderView.StoreOrderView_get_body;
    unfold bind, get_connection, assign_connection, load_connection,
      call_service, on_state, ret;
    destruct w as [s err]; simpl in *; rewrite Hc; simpl;
    match goal with
    | |- context [match ?m data (committed s) with _ => _ end] =>
        destruct (m data (committed s)) as [[v|e] t1]
    end; simpl; try reflexivity.
  rewrite getitem0_run. destruct (first_item v); reflexivity.
Qed.

(** The [try] block of a write handler once the connection is obtained. *)
Lemma write_body_response (app : App Store) (h : handler) (data : pyval)
  (w : world (server Store)) :
  is_write h = true ->
  fault (state w) OpConnect = None ->
  body app h data w =
    match service_of app h data (committed (state w)) with
    | (Raise e, t1) => (Raise e, World (served app h data t1 (state w)) (stderr w))
    | (Return v, t1) =>
        match fault (state w) OpCommit with
        | Some e =>
            (Raise e, World (logged EvCommit (served app h data t1 (state w))) (stderr w))
        | None =>
            (Return (write_response h v),
             World (set_committed t1 (logged EvCommit (served app h data t1 (state w))))
                   (stderr w))
        end
    end.
Proof.
  intros Hw Hc.
  destruct h; try discriminate Hw; simpl;
    unfold DestinationView.DestinationView_post_body,
      DestinationView.DestinationView_delete_body,
      StoreOrderView.StoreOrderAddView_post_body;
    unfold bind, get_connection, assign_connection, load_connection,
      call_service, commit, on_state, ret;
    destruct w as [s err]; simpl in *; rewrite Hc; simpl;
    match goal with
    | |- context [match ?m data (committed s) with _ => _ end] =>
        destruct (m data (committed s)) as [[v|e] t1]
    end; simpl; try reflexivity;
    destruct (fault s OpCommit); reflexivity.
Qed.

(** Every run, by what the connection and the service do. *)
Lemma run_cases (app : App Store) (h : handler) (args : list pyval)
  (w : world (server Store)) (data : pyval) :
  data_of h args w = (Return data, w) ->
  let c := Connection (database_of app h) in
  let s0 := state (fresh w) in
  match fault (state w) OpConnect with
  | Some _ =>
      run app h args w =
        (Raise (DatabaseCloseFail (close_message h)),
         World (logged (EvGetConnection (database_of app h)) s0) (stderr w))
  | None =>
      match service_of app h data (committed (state w)) with
      | (Raise e, t1) =>
          run app h args w =
            (failing h e (state w),
             cleaned h c (World (served app h data t1 s0) (stderr w)))
      | (Return v, t1) =>
          if is_write h
          then match fault (state w) OpCommit with
               | Some e =>
                   run app h args w =
                     (failing h e (state w),
                      cleaned h c
                        (World (logged EvCommit (served app h data t1 s0)) (stderr w)))
               | None =>
                   run app h args w =
                     (closing h (Return (write_response h v)) (state w),
                      snd (close c
                             (World (set_committed t1
                                       (logged EvCommit (served app h data t1 s0)))
                                    (stderr w))))
               end
          else match read_response h v with
               | Raise e =>
                   run app h args w =
                     (failing h e (state w),
                      cleaned h c (World (served app h data t1 s0) (stderr w)))
               | Return resp =>
                   run app h args w =
                     (closing h (Return resp) (state w),
                      snd (close c (World (served app h data t1 s0) (stderr w))))
               end
      end
  end.
Proof.
  intros Hdata c s0.
  rewrite (run_protected app h args w data Hdata).
  destruct (fault (state w) OpConnect) as [e0|] eqn:Hconn.
  - assert (Hfresh : fault (state (fresh w)) OpConnect = Some e0) by exact Hconn.
    exact (protected_unbound app h data (fresh w) _ e0
             (body_connect_fails app h data (fresh w) e0 Hfresh) eq_refl).
  - assert (Hfresh : fault (state (fresh w)) OpConnect = None) by exact Hconn.
    destruct (is_write h) eqn:Hw.
    + pose proof (write_body_response app h data (fresh w) Hw Hfresh) as Hbody.
      change (committed (state (fresh w))) with (committed (state w)) in Hbody.
      change (fault (state (fresh w)) OpCommit) with (fault (state w) OpCommit) in Hbody.
      destruct (service_of app h data (committed (state w))) as [[v|e] t1].
      * destruct (fault (state w) OpCommit) as [ec|].
        -- rewrite (protected_bound_raise app h data (fresh w) _ ec c Hbody eq_refl).
           unfold failing, closing. rewrite Hw. reflexivity.
        -- rewrite (protected_bound_return app h data (fresh w) _ _ c Hbody eq_refl).
           reflexivity.
      * rewrite (protected_bound_raise app h data (fresh w) _ e c Hbody eq_refl).
        unfold failing, closing. rewrite Hw. reflexivity.
    + pose proof (read_body app h data (fresh w) Hw Hfresh) as Hbody.
      change (committed (state (fresh w))) with (committed (state w)) in Hbody.
      destruct (service_of app h data (committed (state w))) as [[v|e] t1].
      * destruct (read_response h v) as [resp|e].
        -- rewrite (protected_bound_return app h data (fresh w) _ _ c Hbody eq_refl).
           reflexivity.
        -- rewrite (protected_bound_raise app h data (fresh w) _ e c Hbody eq_refl).
           unfold failing, closing. rewrite Hw. reflexivity.
      * rewrite (protected_bound_raise app h data (fresh w) _ e c Hbody eq_refl).
        unfold failing, closing. rewrite Hw. reflexivity.
Qed.

Lemma close_transaction (c : connection_obj) (w : world (server Store)) :
  fault (state w) OpClose = None ->
  transaction (state (snd (close c w))) = None.
Proof.
  intros H. unfold close, on_state. destruct w as [s err]. simpl in *.
  rewrite H. reflexivity.
Qed.

Lemma cleaned_transaction (h : handler) (c : connection_obj)
  (w : world (server Store)) :
  fault (state w) OpClose = None ->
  transaction (state (cleaned h c w)) = None.
Proof.
  intros H. unfold cleaned. apply close_transaction.
  destruct (is_write h); [|exact H].
  destruct (rollback_run c w) as (_ & _ & _ & _ & ->). exact H.
Qed.

(** The log of a run whose connection was obtained, by how it ended. *)
Lemma cleaned_trace (app : App Store) (h : handler) (data : pyval) (t1 : Store)
  (w : world (server Store)) (pre : list event) (s1 : server Store) :
  log s1 = (log (state w) ++ EvGetConnection (database_of app h)
              :: EvService (service_name h) data :: pre)%list ->
  appended w (cleaned h (Connection (database_of app h)) (World s1 (stderr w)))
    (EvGetConnection (database_of app h) :: EvService (service_name h) data
       :: (pre ++ if is_write h then [EvRollback] else []) ++ [EvClose]).
Proof.
  intros Hlog.
  pose proof (cleaned_log h (Connection (database_of app h)) (World s1 (stderr w))) as H.
  unfold appended in *. rewrite H. simpl. rewrite Hlog.
  destruct (is_write h); rewrite <- !app_assoc; simpl;
    rewrite <- ?app_assoc; simpl; rewrite ?app_nil_r; reflexivity.
Qed.

Lemma closed_trace (app : App Store) (h : handler) (data : pyval)
  (w : world (server Store)) (pre : list event) (s1 : server Store) :
  log s1 = (log (state w) ++ EvGetConnection (database_of app h)
              :: EvService (service_name h) data :: pre)%list ->
  appended w (snd (close (Connection (database_of app h)) (World s1 (stderr w))))
    (EvGetConnection (database_of app h) :: EvService (service_name h) data
       :: pre ++ [EvClose]).
Proof.
  intros Hlog. unfold appended.
  destruct (close_run (Connection (database_of app h)) (World s1 (stderr w)))
    as (_ & -> & _).
  simpl. rewrite Hlog, <- !app_assoc. reflexivity.
Qed.

Lemma served_log (app : App Store) (h : handler) (data : pyval) (t1 : Store)
  (w : world (server Store)) :
  log (served app h data t1 (state (fresh w)))
  = (log (state w) ++ EvGetConnection (database_of app h)
       :: EvService (service_name h) data :: [])%list.
Proof. simpl. rewrite <- app_assoc. reflexivity. Qed.

Lemma committed_log (app : App Store) (h : handler) (data : pyval) (t1 : Store)
  (w : world (server Store)) :
  log (logged EvCommit (served app h data t1 (state (fresh w))))
  = (log (state w) ++ EvGetConnection (database_of app h)
       :: EvService (service_name h) data :: [EvCommit])%list.
Proof. simpl. rewrite <- !app_assoc. reflexivity. Qed.

(** Once the connection is obtained, the log of a run starts with
    [get_connection] and the service call on the handler's [data]. *)
Lemma run_prefix (app : App Store) (h : handler) (args : list pyval)
  (w : world (server Store)) (data : pyval) :
  data_of h args w = (Return data, w) ->
  fault (state w) OpConnect = None ->
  exists rest,
    appended w (snd (run app h args w))
      (EvGetConnection (database_of app h) :: EvService (service_name h) data :: rest).
Proof.
  intros Hdata Hconn.
  pose proof (run_cases app h args w data Hdata) as Hrun. cbv zeta in Hrun.
  rewrite Hconn in Hrun.
  destruct (service_of app h data (committed (state w))) as [[v|e] t1].
  - destruct (is_write h) eqn:Hw.
    + destruct (fault (state w) OpCommit) as [ec|]; rewrite Hrun; cbn [fst snd];
        eexists;
        [ apply (cleaned_trace app h data t1 w [EvCommit]); apply committed_log
        | apply (closed_trace app h data w [EvCommit]); apply committed_log ].
    + destruct (read_response h v) as [resp|e]; rewrite Hrun; cbn [fst snd];
        eexists;
        [ apply (closed_trace app h data w []); apply served_log
        | apply (cleaned_trace app h data t1 w []); apply served_log ].
  - rewrite Hrun; cbn [fst snd]. eexists.
    apply (cleaned_trace app h data t1 w []). apply served_log.
Qed.

(** X7.  The calls of a run, for every handler and whatever the
    connection and the service do: [get_connection] comes first; when it
    raises, nothing else is called; otherwise the service is called next,
    exactly once, and [connection.close()] is called last, exactly once.
    Between the two a GET handler calls nothing; a write handler calls
    rollback alone when the service raised, commit alone when the service
    returned and the commit went through, and commit then rollback when
    the commit raised.  When the close goes through no transaction is
    left open. *)
Theorem call_sequence (app : App Store) (h : handler) (args : list pyval)
  (w : world (server Store)) (data : pyval) :
  data_of h args w = (Return data, w) ->
  exists tr,
    appended w (snd (run app h args w)) tr /\
    (forall e, fault (state w) OpConnect = Some e ->
       tr = [EvGetConnection (database_of app h)]) /\
    (fault (state w) OpConnect = None ->
       exists mid,
         tr = EvGetConnection (database_of app h)
                :: EvService (service_name h) data :: mid ++ [EvClose] /\
         (mid = [] \/ mid = [EvCommit] \/ mid = [EvRollback]
          \/ mid = [EvCommit; EvRollback]) /\
         (is_write h = false -> mid = []) /\
         (is_write h = true ->
          forall e, fst (service_of app h data (committed (state w))) = Raise e ->
            mid = [EvRollback]) /\
         (is_write h = true ->
          forall v, fst (service_of app h data (committed (state w))) = Return v ->
            fault (state w) OpCommit = None -> mid = [EvCommit]) /\
         (is_write h = true ->
          forall v e, fst (service_of app h data (committed (state w))) = Return v ->
            fault (state w) OpCommit = Some e -> mid = [EvCommit; EvRollback]) /\
         (fault (state w) OpClose = None ->
            transaction (state (snd (run app h args w))) = None)).
Proof.
  intros Hdata.
  pose proof (run_cases app h args w data Hdata) as Hrun. cbv zeta in Hrun.
  destruct (fault (state w) OpConnect) as [e0|] eqn:Hconn.
  { rewrite Hrun. exists [EvGetConnection (database_of app h)].
    split; [reflexivity|]. split; [reflexivity|]. intros H; discriminate H. }
  destruct (service_of app h data (committed (state w))) as [[v|e] t1].
  - destruct (is_write h) eqn:Hw.
    + destruct (fault (state w) OpCommit) as [ec|] eqn:Hcommit;
        rewrite Hrun; cbn [fst snd].
      * (* the service returned, the commit raised *)
        eexists. split; [apply (cleaned_trace app h data t1 w [EvCommit]);
                         apply committed_log|].
        split; [intros e H; discriminate H|]. intros _. rewrite Hw.
        exists [EvCommit; EvRollback]. split; [reflexivity|].
        split; [right; right; right; reflexivity|].
        split; [intros H; discriminate H|].
        split; [intros _ e H; discriminate H|].
        split; [intros _ v' _ H; discriminate H|].
        split; [intros _ v' e _ _; reflexivity|].
        intros Hclose. apply cleaned_transaction. exact Hclose.
      * (* the service returned, the commit went through *)
        eexists. split; [apply (closed_trace app h data w [EvCommit]);
                         apply committed_log|].
        split; [intros e H; discriminate H|]. intros _.
        exists [EvCommit]. split; [reflexivity|].
        split; [right; left; reflexivity|].
        split; [intros H; discriminate H|].
        split; [intros _ e H; discriminate H|].
        split; [intros _ v' _ _; reflexivity|].
        split; [intros _ v' e _ H; discriminate H|].
        intros Hclose. apply close_transaction. exact Hclose.
    + destruct (read_response h v) as [resp|e]; rewrite Hrun; cbn [fst snd].
      * (* a GET handler answers *)
        eexists. split; [apply (closed_trace app h data w []); apply served_log|].
        split; [intros e H; discriminate H|]. intros _.
        exists []. split; [reflexivity|].
        split; [left; reflexivity|].
        split; [intros _; reflexivity|].
        split; [intros H; discriminate H|].
        split; [intros H; discriminate H|].
        split; [intros H; discriminate H|].
        intros Hclose. apply close_transaction. exact Hclose.
      * (* a GET handler fails on the service's result *)
        eexists. split; [apply (cleaned_trace app h data t1 w []); apply served_log|].
        split; [intros e' H; discriminate H|]. intros _. rewrite Hw.
        exists []. split; [reflexivity|].
        split; [left; reflexivity|].
        split; [intros _; reflexivity|].
        split; [intros H; discriminate H|].
        split; [intros H; discriminate H|].
        split; [intros H; discriminate H|].
        intros Hclose. apply cleaned_transaction. exact Hclose.
  - (* the service raised *)
    rewrite Hrun; cbn [fst snd].
    eexists. split; [apply (cleaned_trace app h data t1 w []); apply served_log|].
    split; [intros e' H; discriminate H|]. intros _.
    exists (if is_write h then [EvRollback] else []). split; [reflexivity|].
    destruct (is_write h).
    + split; [right; right; left; reflexivity|].
      split; [intros H; discriminate H|].
      split; [intros _ e' _; reflexivity|].
      split; [intros _ v' H; discriminate H|].
      split; [intros _ v' e' H; discriminate H|].
      intros Hclose. apply cleaned_transaction. exact Hclose.
    + split; [left; reflexivity|].
      split; [intros _; reflexivity|].
      split; [intros H; discriminate H|].
      split; [intros H; discriminate H|].
      split; [intros H; discriminate H|].
      intros Hclose. apply cleaned_transaction. exact Hclose.
Qed.


Lemma closed_committed (c : connection_obj) (w : world (server Store)) :
  committed (state (snd (close c w))) = committed (state w).
Proof. destruct (close_run c w) as (_ & _ & H & _). exact H. Qed.

(** X8.  When building [data] raises (a positional argument or an
    attribute of flask's [g] is missing), the handler raises that
    exception from outside its [try]: [get_connection] is never called,
    nothing is logged and nothing committed, and no DatabaseCloseFail
    takes its place. *)
Theorem data_failure_touches_nothing (app : App Store) (h : handler)
  (args : list pyval) (w : world (server Store)) (e : exn) :
  data_of h args w = (Raise e, w) ->
  fst (run app h args w) = Raise e /\
  log (state (snd (run app h args w))) = log (state w) /\
  committed (state (snd (run app h args w))) = committed (state w) /\
  transaction (state (snd (run app h args w))) = transaction (state w).
Proof.
  intros H. rewrite run_bind. unfold bind.
  rewrite (data_of_fresh_raise h args w e H). repeat split.
Qed.

(** X9.  A GET handler publishes nothing: whatever the connection and
    the service do, also when the service writes through its connection,
    the committed rows after the run are those before, and the handler
    calls neither commit nor rollback. *)
Theorem get_handlers_publish_nothing (app : App Store) (h : handler)
  (args : list pyval) (w : world (server Store)) (data : pyval) :
  is_write h = false ->
  data_of h args w = (Return data, w) ->
  committed (state (snd (run app h args w))) = committed (state w) /\
  exists tr,
    appended w (snd (run app h args w)) tr /\
    ~ In EvCommit tr /\ ~ In EvRollback tr.
Proof.
  intros Hw Hdata.
  pose proof (run_cases app h args w data Hdata) as Hrun. cbv zeta in Hrun.
  rewrite Hw in Hrun.
  assert (Hno : forall db name d,
             ~ In EvCommit [EvGetConnection db; EvService name d; EvClose] /\
             ~ In EvRollback [EvGetConnection db; EvService name d; EvClose]).
  { intros db name d. split; intros [H|[H|[H|[]]]]; discriminate H. }
  destruct (fault (state w) OpConnect) as [e0|] eqn:Hconn.
  { rewrite Hrun. split; [reflexivity|].
    exists [EvGetConnection (database_of app h)]. split; [reflexivity|].
    split; intros [H|[]]; discriminate H. }
  destruct (service_of app h data (committed (state w))) as [[v|e] t1];
    [destruct (read_response h v) as [resp|e]|]; rewrite Hrun; cbn [fst snd].
  - split; [rewrite closed_committed; reflexivity|].
    eexists. split; [apply (closed_trace app h data w []); apply served_log|].
    apply Hno.
  - split; [rewrite cleaned_committed; reflexivity|].
    eexists. split; [apply (cleaned_trace app h data t1 w []); apply served_log|].
    rewrite Hw. apply Hno.
  - split; [rewrite cleaned_committed; reflexivity|].
    eexists. split; [apply (cleaned_trace app h data t1 w []); apply served_log|].
    rewrite Hw. apply Hno.
Qed.

(** X10.  A write handler that returns has committed: if the handler
    returns at all, then [get_connection], the service, the commit and the
    close all went through, the committed rows are exactly those the
    service left, no transaction is open, and the answer is the handler's
    success envelope. *)
Theorem returned_means_committed (app : App Store) (h : handler)
  (args : list pyval) (w : world (server Store)) (data v : pyval) :
  is_write h = true ->
  data_of h args w = (Return data, w) ->
  fst (run app h args w) = Return v ->
  fault (state w) OpConnect = None /\
  fault (state w) OpCommit = None /\
  fault (state w) OpClose = None /\
  (exists r, fst (service_of app h data (committed (state w))) = Return r /\
             v = write_response h r) /\
  committed (state (snd (run app h args w)))
    = snd (service_of app h data (committed (state w))) /\
  transaction (state (snd (run app h args w))) = None.
Proof.
  intros Hw Hdata.
  pose proof (run_cases app h args w data Hdata) as Hrun. cbv zeta in Hrun.
  rewrite Hw in Hrun. unfold failing, closing in Hrun. rewrite Hw in Hrun.
  destruct (fault (state w) OpConnect) as [e0|] eqn:Hconn.
  { rewrite Hrun. intros H; discriminate H. }
  destruct (service_of app h data (committed (state w))) as [[r|e] t1].
  - destruct (fault (state w) OpCommit) as [ec|] eqn:Hcommit; rewrite Hrun; cbn [fst snd].
    + destruct (fault (state w) OpClose); [discriminate|].
      destruct (fault (state w) OpRollback); discriminate.
    + destruct (fault (state w) OpClose) as [ecl|] eqn:Hclose; [discriminate|].
      intros Hv. injection Hv as <-.
      repeat split.
      * exists r. split; reflexivity.
      * rewrite closed_committed. reflexivity.
      * apply close_transaction. exact Hclose.
  - rewrite Hrun; cbn [fst snd].
    destruct (fault (state w) OpClose); [discriminate|].
    destruct (fault (state w) OpRollback); discriminate.
Qed.

(** X11.  A failing [connection.close()] hides everything: once the
    connection is obtained, if close raises, every handler raises
    DatabaseCloseFail with its own message, whatever happened before; for
    a write handler whose service returned and whose commit went through,
    the rows are committed all the same. *)
Theorem close_failure_hides_the_outcome (app : App Store) (h : handler)
  (args : list pyval) (w : world (server Store)) (data : pyval) (e : exn) :
  data_of h args w = (Return data, w) ->
  fault (state w) OpConnect = None ->
  fault (state w) OpClose = Some e ->
  fst (run app h args w) = Raise (DatabaseCloseFail (close_message h)) /\
  (is_write h = true -> fault (state w) OpCommit = None ->
   forall r, fst (service_of app h data (committed (state w))) = Return r ->
     committed (state (snd (run app h args w)))
       = snd (service_of app h data (committed (state w)))).
Proof.
  intros Hdata Hconn Hclose.
  pose proof (run_cases app h args w data Hdata) as Hrun. cbv zeta in Hrun.
  rewrite Hconn in Hrun. unfold failing, closing in Hrun. rewrite Hclose in Hrun.
  destruct (service_of app h data (committed (state w))) as [[r|e1] t1].
  - destruct (is_write h) eqn:Hw.
    + destruct (fault (state w) OpCommit) as [ec|]; rewrite Hrun; cbn [fst snd].
      * split; [reflexivity|]. intros _ H; discriminate H.
      * split; [reflexivity|]. intros _ _ r' _. rewrite closed_committed. reflexivity.
    + destruct (read_response h r); rewrite Hrun;
        (split; [reflexivity | intros H; discriminate H]).
  - rewrite Hrun. split; [reflexivity|].
    intros _ _ r H. discriminate H.
Qed.

(** X12.  DestinationDetailView.get answers with the first element of a
    non-empty list or tuple and drops the rest: with the connection
    working, the response is {'message': 'success', 'result': first}, and
    nothing is committed. *)
Theorem detail_answers_first_element (app : App Store) (args : list pyval)
  (w : world (server Store)) (destination_id seq first : pyval)
  (rest : list pyval) (t1 : Store) :
  nth_error args 0 = Some destination_id ->
  fault (state w) OpConnect = None ->
  fault (state w) OpClose = None ->
  service_of app DestinationDetail_get
    (PyDict [("destination_id", destination_id)]) (committed (state w))
    = (Return seq, t1) ->
  seq = PyList (first :: rest) \/ seq = PyTuple (first :: rest) ->
  fst (run app DestinationDetail_get args w)
    = Return (PyDict [("message", PyStr "success"); ("result", first)]) /\
  committed (state (snd (run app DestinationDetail_get args w))) = committed (state w).
Proof.
  intros Harg Hconn Hclose Hsvc Hseq.
  assert (Hdata : data_of DestinationDetail_get args w
                  = (Return (PyDict [("destination_id", destination_id)]), w)).
  { simpl. unfold bind, ret. rewrite arg_run, Harg. reflexivity. }
  pose proof (run_cases app DestinationDetail_get args w _ Hdata) as Hrun.
  cbv zeta in Hrun. rewrite Hconn, Hsvc in Hrun. simpl is_write in Hrun.
  cbv iota in Hrun.
  assert (Hresp : read_response DestinationDetail_get seq
                  = Return (PyDict [("message", PyStr "success"); ("result", first)])).
  { destruct Hseq as [-> | ->]; reflexivity. }
  rewrite Hresp in Hrun. rewrite Hrun. cbn [fst snd].
  unfold closing. rewrite Hclose. split; [reflexivity|].
  rewrite closed_committed. reflexivity.
Qed.

(** X15.  DestinationView.get and DestinationView.delete act for account
    120, whatever the request and whoever is signed in: once the
    connection is obtained, the service is called with
    {'account_id': 120}, respectively with the given destination_id and
    'account_id': 120, and flask's [g] is not consulted. *)
Theorem destination_handlers_act_for_account_120 (app : App Store)
  (args : list pyval) (w : world (server Store)) :
  fault (state w) OpConnect = None ->
  (exists rest,
      appended w (snd (run app Destination_get args w))
        (EvGetConnection (database_of app Destination_get)
           :: EvService "get_destination_detail_by_user_service"
                (PyDict [("account_id", PyInt 120)])
           :: rest)) /\
  (forall destination_id,
      nth_error args 0 = Some destination_id ->
      exists rest,
        appended w (snd (run app Destination_delete args w))
          (EvGetConnection (database_of app Destination_delete)
             :: EvService "delete_destination_service"
                  (PyDict [("destination_id", destination_id);
                           ("account_id", PyInt 120)])
             :: rest)).
Proof.
  intros Hconn. split.
  - exact (run_prefix app Destination_get args w
             (PyDict [("account_id", PyInt 120)]) eq_refl Hconn).
  - intros destination_id Harg.
    assert (Hdata : data_of Destination_delete args w
                    = (Return (PyDict [("destination_id", destination_id);
                                       ("account_id", PyInt 120)]), w)).
    { simpl. unfold bind, ret. rewrite arg_run, Harg. reflexivity. }
    exact (run_prefix app Destination_delete args w _ Hdata Hconn).
Qed.

End WithStore.

(** X15, witness: listing destinations as another account still asks for
    those of account 120. *)
Lemma destination_handlers_act_for_account_120_witness :
  exists rest,
    log (state (snd (run (sample_app true) Destination_get [PyInt 7]
                       (World (idle [1; 2]) []))))
    = ([] ++ EvGetConnection (PyStr "brandi")
          :: EvService "get_destination_detail_by_user_service"
               (PyDict [("account_id", PyInt 120)])
          :: rest)%list.
Proof.
  exact (proj1 (destination_handlers_act_for_account_120 (sample_app true)
                  [PyInt 7] (World (idle [1; 2]) []) eq_refl)).
Defined.

(** X7, witness: creating a destination on the sample application. *)
Lemma call_sequence_witness :
  log (state (snd (run (sample_app true) Destination_post sample_destination
                     (World (idle [1; 2]) []))))
  = [EvGetConnection (PyStr "brandi");
     EvService "create_destination_service"
       (PyDict [("user_id", PyStr "120"); ("recipient", PyStr "kim");
                ("phone", PyStr "01012341234"); ("address1", PyStr "seoul");
                ("address2", PyStr "101"); ("post_number", PyStr "12345")]);
     EvCommit; EvClose] /\
  transaction (state (snd (run (sample_app true) Destination_post sample_destination
                             (World (idle [1; 2]) [])))) = None.
Proof.
  destruct (call_sequence (sample_app true) Destination_post sample_destination
              (World (idle [1; 2]) []) _ eq_refl)
    as (tr & Happ & _ & Hrest).
  destruct (Hrest eq_refl) as (mid & _ & _ & _ & _ & _ & _ & Hclosed).
  split; [reflexivity | exact (Hclosed eq_refl)].
Defined.

(** X8, witness: DestinationView.post called with five arguments. *)
Lemma data_failure_touches_nothing_witness :
  fst (run (sample_app true) Destination_post
         [PyStr "120"; PyStr "kim"; PyStr "01012341234"; PyStr "seoul"; PyStr "101"]
         (World (idle [1; 2]) []))
    = Raise (IndexError "tuple index out of range") /\
  log (state (snd (run (sample_app true) Destination_post
                     [PyStr "120"; PyStr "kim"; PyStr "01012341234"; PyStr "seoul";
                      PyStr "101"]
                     (World (idle [1; 2]) [])))) = [].
Proof.
  destruct (data_failure_touches_nothing (sample_app true) Destination_post
              [PyStr "120"; PyStr "kim"; PyStr "01012341234"; PyStr "seoul"; PyStr "101"]
              (World (idle [1; 2]) []) (IndexError "tuple index out of range") eq_refl)
    as (Hraise & Hlog & _).
  split; [exact Hraise | exact Hlog].
Defined.

(** X9, witness: listing the destinations of the sample application. *)
Lemma get_handlers_publish_nothing_witness :
  committed (state (snd (run (sample_app true) Destination_get []
                           (World (idle [1; 2]) [])))) = [1; 2].
Proof.
  exact (proj1 (get_handlers_publish_nothing (sample_app true) Destination_get []
                  (World (idle [1; 2]) []) _ eq_refl eq_refl)).
Defined.

(** X10, witness: the order placed on the sample application. *)
Lemma returned_means_committed_witness :
  committed (state (snd (run (sample_app true) StoreOrderAdd_post
                           (List.repeat (PyInt 1) 19) (World (idle [1; 2]) []))))
  = [1; 2; 55].
Proof.
  destruct (returned_means_committed (sample_app true) StoreOrderAdd_post
              (List.repeat (PyInt 1) 19) (World (idle [1; 2]) []) _ _
              eq_refl eq_refl eq_refl)
    as (_ & _ & _ & _ & Hcommitted & _).
  exact Hcommitted.
Defined.

(** X11, witness: the destination is created and committed, and the
    client is told that closing the database failed. *)
Lemma close_failure_hides_the_outcome_witness :
  fst (run (sample_app true) Destination_post sample_destination
         (World (unclosable [1; 2]) []))
    = Raise (DatabaseCloseFail "database close fail") /\
  committed (state (snd (run (sample_app true) Destination_post sample_destination
                           (World (unclosable [1; 2]) [])))) = [1; 2; 100; 101].
Proof.
  destruct (close_failure_hides_the_outcome (sample_app true) Destination_post
              sample_destination (World (unclosable [1; 2]) []) _
              (MySQLError 2013 "Lost connection to MySQL server")
              eq_refl eq_refl eq_refl)
    as (Hraise & Hcommitted).
  split; [exact Hraise | exact (Hcommitted eq_refl eq_refl PyNone eq_refl)].
Defined.

(** X12, witness: destination 2 of the sample application. *)
Lemma detail_answers_first_element_witness :
  fst (run (sample_app false) DestinationDetail_get [PyInt 2] (World (idle [1; 2]) []))
    = Return (PyDict [("message", PyStr "success");
                      ("result", PyDict [("id", PyInt 2)])]).
Proof.
  exact (proj1 (detail_answers_first_element (sample_app false) [PyInt 2]
                  (World (idle [1; 2]) []) (PyInt 2)
                  (PyList [PyDict [("id", PyInt 2)]]) (PyDict [("id", PyInt 2)]) []
                  [1; 2] eq_refl eq_refl eq_refl eq_refl (or_introl eq_refl))).
Defined.

End ViewConduct.

(** ** From the validated request to [data] *)

Module ValidatorConduct.
Import Validator Conduct.

Section Rules.
Variable accepts : rule -> string -> bool.

Lemma check_param_value (p : Param) (req : request) (v : pyval) :
  check_param accepts p req = Some v -> v = param_value req p.
Proof.
  unfold check_param, param_value.
  destruct (lookup (name p) (values req (source p))) as [v0|].
  - destruct (has_type (type_ p) v0 && forallb (fun r => rule_accepts accepts r v0) (rules p));
      intros H; [injection H as <-; reflexivity | discriminate H].
  - destruct (required p); intros H; [discriminate H | injection H as <-; reflexivity].
Qed.

(** A request the validator lets through hands over one value per
    declared parameter, in the order of the declarations. *)
Lemma collect_accepted (params : list Param) (req : request) :
  forall vals,
    collect accepts params req = ([], vals) ->
    vals = List.map (param_value req) params.
Proof.
  induction params as [|p params IH]; simpl; intros vals H.
  - injection H as <-. reflexivity.
  - destruct (check_param accepts p req) as [v|] eqn:Hp;
      destruct (collect accepts params req) as [errors vals'].
    + injection H as -> <-.
      rewrite (check_param_value p req v Hp), (IH vals' eq_refl). reflexivity.
    + discriminate H.
Qed.

(** X14.  The positional plumbing of the two POST handlers.  When the
    validator lets a request through, the decorated method receives one
    value per declared parameter, so building [data] never fails on
    [args[i]], and every key of [data] holds the value of the JSON
    parameter meant for it ('post_number' that of 'postNumber',
    'delivery_memo_type_id' that of 'deliveryId', 'delivery_content' that
    of the optional 'deliveryMemo' or None, and so on); the order's
    'user_id' and 'user_permission' come from flask's [g]. *)
Theorem accepted_request_fills_data {Store : Type} :
  (forall (self : DestinationView.Self Store) req (w : world (server Store)) vals,
      collect accepts DestinationView_post_params req = ([], vals) ->
      DestinationView_post_route accepts self req w
        = DestinationView.DestinationView_post self vals w /\
      exists entries,
        DestinationView.DestinationView_post_data vals w = (Return (PyDict entries), w) /\
        carried destination_fields req entries) /\
  (forall req (w : world (server Store)) vals account permission,
      collect accepts StoreOrderAddView_post_params req = ([], vals) ->
      lookup "account_id" (g (state w)) = Some account ->
      lookup "permission_type_id" (g (state w)) = Some permission ->
      exists entries,
        StoreOrderView.StoreOrderAddView_post_data vals w = (Return (PyDict entries), w) /\
        carried order_fields req entries /\
        lookup "user_id" entries = Some account /\
        lookup "user_permission" entries = Some permission).
Proof.
  split.
  - intros self req w vals H. split.
    + unfold DestinationView_post_route, validate_params. rewrite H. reflexivity.
    + apply collect_accepted in H. subst vals.
      eexists. split; [reflexivity|].
      unfold carried, destination_fields. repeat constructor.
  - intros req w vals account permission H Ha Hp.
    apply collect_accepted in H. subst vals.
    unfold StoreOrderView.StoreOrderAddView_post_data, bind.
    rewrite ViewSpec.g_attr_run, Ha, ViewSpec.g_attr_run, Hp.
    eexists. split; [reflexivity|].
    split; [unfold carried, order_fields; repeat constructor|].
    split; reflexivity.
Qed.

End Rules.

(** X14, witness: the well-formed destination reaches [data] as sent. *)
Lemma accepted_request_fills_data_witness :
  exists entries,
    DestinationView.DestinationView_post_data Handlers.sample_destination
      (World (Handlers.idle [1; 2]) [])
    = (Return (PyDict entries), World (Handlers.idle [1; 2]) []) /\
    carried destination_fields good_destination entries.
Proof.
  exact (proj2 (proj1 (accepted_request_fills_data sample_rules (Store := list Z))
                  (Handlers.destination (Handlers.sample_app true)) good_destination
                  (World (Handlers.idle [1; 2]) []) Handlers.sample_destination
                  eq_refl)).
Defined.

End ValidatorConduct.
